(** * SnowParkDataSet: a shallow embedding of
      kedro_datasets/snowflake/snowpark_dataset.py

    The adapter is a thin layer over the Snowpark SDK.  The embedding keeps
    the Python shape of the code:

    - dictionaries are [gmap string PyVal]; the caller's [credentials]
      dictionary lives in a store and is passed by reference, because
      [__init__] updates it in place;
    - adapter instances live in an object store and methods receive [self]
      as a reference;
    - the vendor SDK is an interface ([Snowpark]) whose operations act on an
      abstract backend state and may raise;
    - every method is a computation in a state-and-exception monad over the
      [World]; each SDK call is appended to a call log. *)

From stdpp Require Import base option list strings gmap fin_maps pretty.
From Stdlib Require Import ZArith Ascii String.

Open Scope string_scope.
Open Scope list_scope.

(** ** Python values *)

Module Py.

(** The scalar values a credentials file can hold ([Dict[str, Any]]):
    [None], booleans, integers and strings. *)
Inductive PyVal : Type :=
| VNone
| VBool (b : bool)
| VInt (z : Z)
| VStr (s : string).

(** Exceptions that the adapter raises, catches or lets through. *)
Inductive exn : Type :=
| DataSetError (msg : string)
| SnowparkSessionException
| IndexError
| TypeError
| KeyError
| ValueError
| VendorError (what : string)   (* anything else the SDK raises *)
| DanglingReference.            (* a reference with nothing behind it; no
                                   Python program holds one *)

Inductive result (A : Type) : Type :=
| Ok (a : A)
| Raise (e : exn).
Arguments Ok {A} a.
Arguments Raise {A} e.

(** Python's truth protocol: [not x] is [negb (truthy x)]. *)
Class Truthy (A : Type) := truthy : A -> bool.

#[global] Instance truthy_str : Truthy string :=
  fun s => match s with EmptyString => false | String _ _ => true end.

#[global] Instance truthy_val : Truthy PyVal :=
  fun v =>
    match v with
    | VNone => false
    | VBool b => b
    | VInt z => negb (z =? 0)%Z
    | VStr s => truthy s
    end.

(** [None] is falsy; otherwise the value decides. *)
#[global] Instance truthy_optional {A} `{Truthy A} : Truthy (option A) :=
  fun o => match o with None => false | Some a => truthy a end.

(** A dictionary is truthy when its length is not zero. *)
#[global] Instance truthy_dict : Truthy (gmap string PyVal) :=
  fun d => negb (size d =? 0)%nat.

(** [str(v)]. *)
Definition str (v : PyVal) : string :=
  match v with
  | VNone => "None"
  | VBool true => "True"
  | VBool false => "False"
  | VInt z => pretty z
  | VStr s => s
  end.

(** [v == w]; a boolean compares as the integer 0 or 1. *)
Definition as_int (v : PyVal) : option Z :=
  match v with
  | VBool b => Some (if b then 1 else 0)%Z
  | VInt z => Some z
  | _ => None
  end.

Definition equal (v w : PyVal) : bool :=
  match v, w with
  | VNone, VNone => true
  | VStr s, VStr t => String.eqb s t
  | _, _ =>
      match as_int v, as_int w with
      | Some a, Some b => (a =? b)%Z
      | _, _ => false
      end
  end.

(** [sep.join(items)]: every item must be a [str]. *)
Fixpoint join (sep : string) (items : list PyVal) : result string :=
  match items with
  | [] => Ok ""
  | VStr s :: rest =>
      match rest with
      | [] => Ok s
      | _ :: _ =>
          match join sep rest with
          | Ok t => Ok (s +:+ sep +:+ t)
          | Raise e => Raise e
          end
      end
  | _ :: _ => Raise TypeError
  end.

(** [tmpl.format] applied to keyword arguments, for templates whose
    replacement fields are plain names, [{name}]: text outside braces is copied, a field is
    replaced by [str] of the keyword argument of that name, a name that is
    not a keyword raises [KeyError], an unmatched brace raises
    [ValueError].  [field] is the name read so far inside an open brace. *)
Fixpoint format_from (kwargs : gmap string PyVal) (field : option string)
    (tmpl : string) : result string :=
  match tmpl with
  | EmptyString =>
      match field with
      | None => Ok ""
      | Some _ => Raise ValueError
      end
  | String c rest =>
      match field with
      | None =>
          if Ascii.eqb c "{" then format_from kwargs (Some "") rest
          else if Ascii.eqb c "}" then Raise ValueError
          else match format_from kwargs None rest with
               | Ok out => Ok (String c out)
               | Raise e => Raise e
               end
      | Some name =>
          if Ascii.eqb c "}" then
            match kwargs !! name with
            | Some v =>
                match format_from kwargs None rest with
                | Ok out => Ok (str v +:+ out)
                | Raise e => Raise e
                end
            | None => Raise KeyError
            end
          else format_from kwargs (Some (name +:+ String c "")) rest
      end
  end.

Definition format (tmpl : string) (kwargs : gmap string PyVal) : result string :=
  format_from kwargs None tmpl.

End Py.
Export Py.

Abbreviation PyDict := (gmap string PyVal).
Abbreviation loc := nat.

(** ** The vendor SDK, as the adapter sees it *)

(** [snowflake.snowpark]: sessions and dataframes are opaque; every operation
    runs against the backend and either returns or raises. *)
Class Snowpark := {
  Session : Type;
  DataFrame : Type;            (* sp.DataFrame *)
  Pandas : Type;               (* any other tabular value, pd.DataFrame *)
  Backend : Type;
  (* sp.context.get_active_session() *)
  get_active_session : Backend -> result Session * Backend;
  (* sp.Session.builder.configs(params).create() *)
  builder_create : PyDict -> Backend -> result Session * Backend;
  (* session.table(name) *)
  session_table : Session -> string -> Backend -> result DataFrame * Backend;
  (* session.create_dataframe(data) *)
  session_create_dataframe :
    Session -> Pandas -> Backend -> result DataFrame * Backend;
  (* df.write.save_as_table(name, ...) with keyword arguments *)
  save_as_table :
    DataFrame -> list PyVal -> PyDict -> Backend -> result unit * Backend;
  (* session.sql(query) *)
  session_sql : Session -> string -> Backend -> result DataFrame * Backend;
  (* df.collect(): rows of cells *)
  collect : DataFrame -> Backend -> result (list (list PyVal)) * Backend
}.

(** ** Worlds, references and the method monad *)

Module SnowParkDataSet.
Section Monad.

Context `{SDK : Snowpark}.

(** The attributes [__init__] assigns on [self]. *)
Record Instance := {
  _load_args : PyDict;
  _save_args : PyDict;
  _table_name : string;
  _database : PyVal;
  _schema : PyVal;
  _connection_parameters : loc;
  _session : Session
}.

(** What [_save] accepts, [Union[pd.DataFrame, sp.DataFrame]];
    [isinstance(data, sp.DataFrame)] holds of [Native] values only. *)
Inductive Data :=
| Native (df : DataFrame)
| Foreign (pdf : Pandas).

(** The SDK calls the adapter makes, with their arguments. *)
Inductive Call :=
| CGetActiveSession
| CBuilderCreate (params : PyDict)
| CTable (s : Session) (name : string)
| CCreateDataframe (s : Session) (pdf : Pandas)
| CSaveAsTable (df : DataFrame) (name : list PyVal) (kwargs : PyDict)
| CSql (s : Session) (query : string)
| CCollect (df : DataFrame).

Record World := {
  dicts : gmap loc PyDict;        (* dictionaries owned by the caller *)
  objs : gmap loc Instance;       (* adapter instances *)
  backend : Backend;              (* the state behind the SDK *)
  calls : list Call               (* SDK calls so far, oldest first *)
}.

Definition M (A : Type) : Type := World -> result A * World.

Definition ret {A} (a : A) : M A := fun w => (Ok a, w).

Definition raise {A} (e : exn) : M A := fun w => (Raise e, w).

Definition bind {A B} (m : M A) (k : A -> M B) : M B :=
  fun w =>
    match m w with
    | (Ok a, w') => k a w'
    | (Raise e, w') => (Raise e, w')
    end.

(** [try: body / except <handles>: handler]. *)
Definition try_except {A} (body : M A) (handles : exn -> bool)
    (handler : M A) : M A :=
  fun w =>
    match body w with
    | (Ok a, w') => (Ok a, w')
    | (Raise e, w') => if handles e then handler w' else (Raise e, w')
    end.

(** Lift a pure computation that may raise. *)
Definition lift {A} (r : result A) : M A := fun w => (r, w).

(** An SDK call: logged, then run against the backend. *)
Definition sdk {A} (c : Call) (op : Backend -> result A * Backend) : M A :=
  fun w =>
    let (r, b) := op (backend w) in
    (r, {| dicts := dicts w; objs := objs w; backend := b;
           calls := calls w ++ [c] |}).

(** Reading the dictionary behind a reference. *)
Definition read_dict (l : loc) : M PyDict :=
  fun w =>
    match dicts w !! l with
    | Some d => (Ok d, w)
    | None => (Raise DanglingReference, w)
    end.

(** [d.update(other)] on the dictionary behind [l]: the keys of [other]
    win. *)
Definition dict_update (l : loc) (other : PyDict) : M unit :=
  fun w =>
    match dicts w !! l with
    | Some d =>
        (Ok tt, {| dicts := <[l := other ∪ d]> (dicts w); objs := objs w;
                   backend := backend w; calls := calls w |})
    | None => (Raise DanglingReference, w)
    end.

(** Reading an attribute of [self]. *)
Definition getattr {A} (self : loc) (attr : Instance -> A) : M A :=
  fun w =>
    match objs w !! self with
    | Some o => (Ok (attr o), w)
    | None => (Raise DanglingReference, w)
    end.

(** Allocation of a new instance. *)
Definition allocate (o : Instance) : M loc :=
  fun w =>
    let self := fresh (dom (objs w)) in
    (Ok self, {| dicts := dicts w; objs := <[self := o]> (objs w);
                 backend := backend w; calls := calls w |}).

End Monad.

Declare Scope py_scope.
Delimit Scope py_scope with py.
Notation "x <- m ;; k" := (bind m (fun x => k))
  (at level 100, m at next level, right associativity) : py_scope.
Notation "m ;;; k" := (bind m (fun _ => k))
  (at level 100, right associativity) : py_scope.
Open Scope py_scope.

(** ** The adapter *)

Section Adapter.

Context `{SDK : Snowpark}.

Definition DEFAULT_LOAD_ARGS : PyDict := ∅.
Definition DEFAULT_SAVE_ARGS : PyDict := ∅.

(** The Python value of an optional [str] argument. *)
Definition arg (a : option string) : PyVal :=
  match a with
  | None => VNone
  | Some s => VStr s
  end.

(** [d[key]] *)
Definition getitem (d : PyDict) (key : string) : M PyVal :=
  match d !! key with
  | Some v => ret v
  | None => raise KeyError
  end.

Definition is_SnowparkSessionException (e : exn) : bool :=
  match e with
  | SnowparkSessionException => true
  | _ => false
  end.

(** [_get_session]: reuse the active session, create one from the
    connection parameters when the SDK reports that there is none.  The two
    [logger.debug] lines have no effect on the adapter and are left out. *)
Definition _get_session (connection_parameters : loc) : M Session :=
  try_except
    (sdk CGetActiveSession get_active_session)
    is_SnowparkSessionException
    (params <- read_dict connection_parameters ;;
     sdk (CBuilderCreate params) (builder_create params)).

(** [__init__].  [credentials] is a reference (or [None]); [load_args] and
    [save_args] are only read, once and before anything is written, so they
    are taken by value.  [truthy (c !! key)] is
    [key in credentials and credentials[key]]. *)
Definition __init__ (table_name : string) (schema database : option string)
    (load_args save_args : option PyDict) (credentials : option loc)
    : M Instance :=
  if negb (truthy table_name) then
    raise (DataSetError "'table_name' argument cannot be empty.")
  else
  match credentials with
  | None => raise (DataSetError "'credentials' argument cannot be empty.")
  | Some credentials =>
  c <- read_dict credentials ;;
  if negb (truthy c) then
    raise (DataSetError "'credentials' argument cannot be empty.")
  else
  database <-
    (if negb (truthy database) then
       if negb (truthy (c !! "database")) then
         raise (DataSetError
                  "'database' must be provided by credentials or dataset.")
       else getitem c "database"
     else ret (arg database)) ;;
  schema <-
    (if negb (truthy schema) then
       if negb (truthy (c !! "schema")) then
         raise (DataSetError
                  "'schema' must be provided by credentials or dataset.")
       else getitem c "schema"
     else ret (arg schema)) ;;
  let load_args_ :=
    match load_args with
    | Some given => given ∪ DEFAULT_LOAD_ARGS
    | None => DEFAULT_LOAD_ARGS
    end in
  let save_args_ :=
    match save_args with
    | Some given => given ∪ DEFAULT_SAVE_ARGS
    | None => DEFAULT_SAVE_ARGS
    end in
  let connection_parameters := credentials in
  dict_update connection_parameters
    {[ "database" := database; "schema" := schema ]} ;;;
  session <- _get_session connection_parameters ;;
  ret {| _load_args := load_args_; _save_args := save_args_;
         _table_name := table_name; _database := database;
         _schema := schema;
         _connection_parameters := connection_parameters;
         _session := session |}
  end.

(** The call [SnowParkDataSet(...)]: a new object initialised by
    [__init__]. *)
Definition instantiate (table_name : string) (schema database : option string)
    (load_args save_args : option PyDict) (credentials : option loc)
    : M loc :=
  o <- __init__ table_name schema database load_args save_args credentials ;;
  allocate o.

Definition _describe (self : loc) : M PyDict :=
  table_name <- getattr self _table_name ;;
  database <- getattr self _database ;;
  schema <- getattr self _schema ;;
  ret {[ "table_name" := VStr table_name; "database" := database;
         "schema" := schema ]}.

Definition _load (self : loc) : M DataFrame :=
  database <- getattr self _database ;;
  schema <- getattr self _schema ;;
  table_name <- getattr self _table_name ;;
  let table_name := [database; schema; VStr table_name] in
  session <- getattr self _session ;;
  name <- lift (join "." table_name) ;;
  sdk (CTable session name) (session_table session name).

Definition _save (self : loc) (data : Data) : M unit :=
  sp_df <-
    (match data with
     | Foreign pdf =>
         session <- getattr self _session ;;
         sdk (CCreateDataframe session pdf)
             (session_create_dataframe session pdf)
     | Native df => ret df
     end) ;;
  database <- getattr self _database ;;
  schema <- getattr self _schema ;;
  table_name <- getattr self _table_name ;;
  let table_name := [database; schema; VStr table_name] in
  save_args <- getattr self _save_args ;;
  sdk (CSaveAsTable sp_df table_name save_args)
      (save_as_table sp_df table_name save_args).

Definition query : string :=
  "SELECT COUNT(*) FROM {database}.INFORMATION_SCHEMA.TABLES WHERE TABLE_SCHEMA = '{schema}' AND TABLE_NAME = '{table_name}'".

(** [rows[0][0]] *)
Definition first_cell (rows : list (list PyVal)) : result PyVal :=
  match rows with
  | [] => Raise IndexError
  | row :: _ =>
      match row with
      | [] => Raise IndexError
      | cell :: _ => Ok cell
      end
  end.

Definition _exists (self : loc) : M bool :=
  session <- getattr self _session ;;
  database <- getattr self _database ;;
  schema <- getattr self _schema ;;
  table_name <- getattr self _table_name ;;
  text <- lift (format query {[ "database" := database; "schema" := schema;
                                "table_name" := VStr table_name ]}) ;;
  df <- sdk (CSql session text) (session_sql session text) ;;
  rows <- sdk (CCollect df) (collect df) ;;
  cell <- lift (first_cell rows) ;;
  ret (Py.equal cell (VInt 1)).

End Adapter.

(** ** Vocabulary of the specification *)

Section Vocabulary.

Context `{SDK : Snowpark}.

(** The entry of the credentials mapping under [key], if there is one. *)
Definition entry (credentials : option loc) (key : string) (w : World)
    : option PyVal :=
  l ← credentials; c ← dicts w !! l; c !! key.

(** The resolved value: the explicit argument when it is given, the
    credentials' entry otherwise. *)
Definition resolved (explicit : option string)
    (from_credentials : option PyVal) : PyVal :=
  if truthy explicit then arg explicit else default VNone from_credentials.

(** The merged argument mapping: the given one over the empty defaults. *)
Definition merged (given : option PyDict) : PyDict := default ∅ given.

(** Neither source supplies a value. *)
Definition unresolvable (explicit : option string)
    (from_credentials : option PyVal) : Prop :=
  truthy explicit = false /\ truthy from_credentials = false.

(** The constructions that lack required configuration. *)
Inductive misconfigured (tn : string) (sch db : option string)
    (creds : option loc) (w : World) : Prop :=
| no_table_name : tn = "" -> misconfigured tn sch db creds w
| no_credentials : creds = None -> misconfigured tn sch db creds w
| empty_credentials l :
    creds = Some l -> dicts w !! l = Some ∅ -> misconfigured tn sch db creds w
| no_database l c :
    creds = Some l -> dicts w !! l = Some c ->
    unresolvable db (c !! "database") -> misconfigured tn sch db creds w
| no_schema l c :
    creds = Some l -> dicts w !! l = Some c ->
    unresolvable sch (c !! "schema") -> misconfigured tn sch db creds w.

(** The world after [l] has been overwritten, and after an allocation. *)
Definition set_dict (l : loc) (d : PyDict) (w : World) : World :=
  {| dicts := <[l := d]> (dicts w); objs := objs w; backend := backend w;
     calls := calls w |}.

Definition alloc_at (self : loc) (o : Instance) (w : World) : World :=
  {| dicts := dicts w; objs := <[self := o]> (objs w); backend := backend w;
     calls := calls w |}.

(** The instance a successful [__init__] leaves behind. *)
Definition built (tn : string) (sch db : option string)
    (la sa : option PyDict) (l : loc) (c : PyDict) (sess : Session)
    : Instance :=
  {| _load_args := merged la; _save_args := merged sa;
     _table_name := tn;
     _database := resolved db (c !! "database");
     _schema := resolved sch (c !! "schema");
     _connection_parameters := l; _session := sess |}.

(** The text of the existence query for a table identity. *)
Definition existence_query (database schema : PyVal) (table_name : string)
    : string :=
  "SELECT COUNT(*) FROM " +:+ str database
  +:+ ".INFORMATION_SCHEMA.TABLES WHERE TABLE_SCHEMA = '" +:+ str schema
  +:+ "' AND TABLE_NAME = '" +:+ table_name +:+ "'".

(** The write call of [_save] for the instance [o]. *)
Definition write_table (o : Instance) (sp_df : DataFrame) : M unit :=
  let name := [_database o; _schema o; VStr (_table_name o)] in
  sdk (CSaveAsTable sp_df name (_save_args o))
      (save_as_table sp_df name (_save_args o)).

(** A caller: operations on adapters, one after the other, whatever each
    one returns or raises. *)
Inductive Op :=
| OpLoad
| OpSave (data : Data)
| OpExists
| OpDescribe.

Definition run_op (self : loc) (op : Op) (w : World) : World :=
  match op with
  | OpLoad => snd (_load self w)
  | OpSave data => snd (_save self data w)
  | OpExists => snd (_exists self w)
  | OpDescribe => snd (_describe self w)
  end.

Definition run_ops (ops : list (loc * Op)) (w : World) : World :=
  foldl (fun w' step => run_op (fst step) (snd step) w') w ops.

(** [n] calls of [_describe] in a row, with their results. *)
Fixpoint describe_repeatedly (self : loc) (n : nat) : M (list PyDict) :=
  match n with
  | O => ret []
  | S n' =>
      m <- _describe self ;;
      ms <- describe_repeatedly self n' ;;
      ret (m :: ms)
  end.

(** A computation that leaves the object store as it found it. *)
Definition keeps_objs {A} (m : M A) : Prop :=
  forall w, objs (snd (m w)) = objs w.

(** Construct an adapter, let the caller run [ops], then load from the
    adapter. *)
Definition load_after (ops : list (loc * Op)) (table_name : string)
    (schema database : option string) (load_args save_args : option PyDict)
    (credentials : option loc) : M DataFrame :=
  fun w =>
    match instantiate table_name schema database load_args save_args
            credentials w with
    | (Ok self, w1) => _load self (run_ops ops w1)
    | (Raise e, w1) => (Raise e, w1)
    end.

(** The world with every adapter's load arguments blanked out, and the
    computations that cannot tell two worlds apart once that is done. *)
Definition forget (o : Instance) : Instance :=
  {| _load_args := ∅; _save_args := _save_args o;
     _table_name := _table_name o; _database := _database o;
     _schema := _schema o;
     _connection_parameters := _connection_parameters o;
     _session := _session o |}.

Definition erase (w : World) : World :=
  {| dicts := dicts w; objs := forget <$> objs w; backend := backend w;
     calls := calls w |}.

Definition blind {A} (m : M A) : Prop :=
  forall w w',
    erase w = erase w' ->
    fst (m w) = fst (m w') /\ erase (snd (m w)) = erase (snd (m w')).

End Vocabulary.

(** ** Further vocabulary: sessions, messages, failures *)

Section FurtherVocabulary.
Context `{SDK : Snowpark}.

(** The world after SDK calls [cs] that left the backend in state [b]. *)
Definition after_calls (cs : list Call) (b : Backend) (w : World) : World :=
  {| dicts := dicts w; objs := objs w; backend := b; calls := calls w ++ cs |}.

(** The connection parameters after [__init__] has written into them. *)
Definition updated (sch db : option string) (c : PyDict) : PyDict :=
  {[ "database" := resolved db (c !! "database");
     "schema" := resolved sch (c !! "schema") ]} ∪ c.

(** The message of the first check of [__init__] that fails. *)
Inductive first_missing (tn : string) (sch db : option string)
    (creds : option loc) (w : World) : string -> Prop :=
| missing_table_name :
    tn = "" ->
    first_missing tn sch db creds w "'table_name' argument cannot be empty."
| missing_credentials :
    tn <> "" -> creds = None ->
    first_missing tn sch db creds w "'credentials' argument cannot be empty."
| missing_entries l :
    tn <> "" -> creds = Some l -> dicts w !! l = Some ∅ ->
    first_missing tn sch db creds w "'credentials' argument cannot be empty."
| missing_database l c :
    tn <> "" -> creds = Some l -> dicts w !! l = Some c -> c <> ∅ ->
    unresolvable db (c !! "database") ->
    first_missing tn sch db creds w
      "'database' must be provided by credentials or dataset."
| missing_schema l c :
    tn <> "" -> creds = Some l -> dicts w !! l = Some c -> c <> ∅ ->
    ~ unresolvable db (c !! "database") ->
    unresolvable sch (c !! "schema") ->
    first_missing tn sch db creds w
      "'schema' must be provided by credentials or dataset.".

(** The ways the existence query can fail at the backend: the query is
    refused, or it is accepted and its collection fails.  [cs] are the SDK
    calls made up to the failure, [b] the backend it leaves. *)
Inductive query_fails (o : Instance) (w : World) (e : exn)
    : list Call -> Backend -> Prop :=
| query_refused b :
    session_sql (_session o)
      (existence_query (_database o) (_schema o) (_table_name o)) (backend w)
    = (Raise e, b) ->
    query_fails o w e
      [CSql (_session o)
         (existence_query (_database o) (_schema o) (_table_name o))] b
| collection_failed df b1 b :
    session_sql (_session o)
      (existence_query (_database o) (_schema o) (_table_name o)) (backend w)
    = (Ok df, b1) ->
    collect df b1 = (Raise e, b) ->
    query_fails o w e
      [CSql (_session o)
         (existence_query (_database o) (_schema o) (_table_name o));
       CCollect df] b.

(** A computation that leaves the dictionaries as it found them. *)
Definition keeps_dicts {A} (m : M A) : Prop :=
  forall w, dicts (snd (m w)) = dicts w.

End FurtherVocabulary.

(** ** A small SDK to run the adapter on

    Sessions are numbered, a dataframe is the text that produced it, and the
    backend answers every query with the rows it was set up with. *)

Module Demo.

Record DemoBackend := {
  active : option nat;
  next_session : nat;
  answer : list (list PyVal)
}.

#[local] Instance demo_sdk : Snowpark := {|
  Session := nat;
  DataFrame := string;
  Pandas := list (list PyVal);
  Backend := DemoBackend;
  get_active_session := fun b =>
    match active b with
    | Some s => (Ok s, b)
    | None => (Raise SnowparkSessionException, b)
    end;
  builder_create := fun _ b =>
    (Ok (next_session b),
     {| active := Some (next_session b);
        next_session := S (next_session b);
        answer := answer b |});
  session_table := fun _ name b => (Ok ("table " +:+ name), b);
  session_create_dataframe := fun _ _ b => (Ok "local", b);
  save_as_table := fun _ _ _ b => (Ok tt, b);
  session_sql := fun _ q b => (Ok ("sql " +:+ q), b);
  collect := fun _ b => (Ok (answer b), b)
|}.

(** The credentials of the documented example, stored at reference 0. *)
Definition weather_credentials : PyDict :=
  {[ "account" := VStr "a"; "user" := VStr "u"; "password" := VStr "p";
     "database" := VStr "meteorology"; "schema" := VStr "observations" ]}.

Definition world0 (creds : PyDict) (rows : list (list PyVal)) : World :=
  {| dicts := {[ 0 := creds ]}; objs := ∅;
     backend := {| active := None; next_session := 7; answer := rows |};
     calls := [] |}.

(** The credentials file of the class documentation. *)
Definition snowflake_client : PyDict :=
  {[ "account" := VStr "ab12345.eu-central-1"; "port" := VInt 443;
     "warehouse" := VStr "datascience_wh";
     "database" := VStr "detailed_data"; "schema" := VStr "observations";
     "user" := VStr "service_account_abc";
     "password" := VStr "supersecret" ]}.

(** Credentials without a schema, and credentials whose database is a
    number. *)
Definition no_schema_credentials : PyDict :=
  {[ "account" := VStr "a"; "database" := VStr "meteorology" ]}.

Definition numbered_credentials : PyDict :=
  <[ "database" := VInt 5 ]> weather_credentials.

(** The catalog entries "weather" and "polygons" of the documentation. *)
Definition weather (save_args : option PyDict) : M loc :=
  instantiate "weather_data" None None None save_args (Some 0).

Definition polygons : M loc :=
  instantiate "geopolygons" (Some "geodata") None None None (Some 0).

Definition overwrite : PyDict :=
  {[ "mode" := VStr "overwrite"; "column_order" := VStr "name";
     "table_type" := VStr "" ]}.

(** Worlds before and after these constructions. *)
Definition before_weather : World := world0 weather_credentials [[VInt 1]].
Definition after_weather : World := snd (weather (Some overwrite) before_weather).

Definition before_polygons : World := world0 snowflake_client [].
Definition after_polygons : World := snd (polygons before_polygons).

Definition before_numbered : World := world0 numbered_credentials [].
Definition after_numbered : World := snd (weather None before_numbered).

Definition before_partial : World := world0 no_schema_credentials [].

(** The instance that the construction of "polygons" leaves at reference 0. *)
Definition polygons_adapter : Instance :=
  {| _load_args := ∅; _save_args := ∅; _table_name := "geopolygons";
     _database := VStr "detailed_data"; _schema := VStr "geodata";
     _connection_parameters := 0; _session := (7 : Session) |}.

Definition weather_name : list PyVal :=
  [VStr "meteorology"; VStr "observations"; VStr "weather_data"].

(** A caller's afternoon. *)
Definition some_ops : list (loc * Op) :=
  [(0, OpLoad); (0, OpSave (Foreign [[VInt 3]])); (0, OpExists);
   (0, OpSave (Native "frame")); (0, OpDescribe)].

End Demo.

(** ** An SDK that answers from a script

    Every operation returns what the script says, success or exception, and
    leaves the script as it was. *)

Module Scripted.

Record Script := {
  active_session : result nat;
  created_session : result nat;
  converted : result string;
  queried : result string;
  collected : result (list (list PyVal))
}.

#[local] Instance scripted_sdk : Snowpark := {|
  Session := nat;
  DataFrame := string;
  Pandas := list (list PyVal);
  Backend := Script;
  get_active_session := fun b => (active_session b, b);
  builder_create := fun _ b => (created_session b, b);
  session_table := fun _ name b => (Ok name, b);
  session_create_dataframe := fun _ _ b => (converted b, b);
  save_as_table := fun _ _ _ b => (Ok tt, b);
  session_sql := fun _ _ b => (queried b, b);
  collect := fun _ b => (collected b, b)
|}.

Definition stage (script : Script) : World :=
  {| dicts := {[ 0 := Demo.weather_credentials ]}; objs := ∅;
     backend := script; calls := [] |}.

(** A session is active and everything works. *)
Definition smooth : Script :=
  {| active_session := Ok 3; created_session := Ok 4;
     converted := Ok "frame"; queried := Ok "count";
     collected := Ok [[VInt 1]] |}.

(** No session is active and none can be created. *)
Definition locked_out : Script :=
  {| active_session := Raise SnowparkSessionException;
     created_session := Raise (VendorError "login refused");
     converted := Ok "frame"; queried := Ok "count";
     collected := Ok [[VInt 1]] |}.

(** A session is active, but data cannot be converted and queries are
    refused. *)
Definition degraded : Script :=
  {| active_session := Ok 3; created_session := Ok 4;
     converted := Raise (VendorError "not tabular");
     queried := Raise (VendorError "warehouse suspended");
     collected := Ok [[VInt 1]] |}.

Definition weather : M loc :=
  instantiate "weather_data" None None None None (Some 0).

Definition weather_adapter : Instance :=
  {| _load_args := ∅; _save_args := ∅; _table_name := "weather_data";
     _database := VStr "meteorology"; _schema := VStr "observations";
     _connection_parameters := 0; _session := (3 : Session) |}.

End Scripted.

(** ** Two catalog entries on one credentials dictionary *)

Module Shared.

Import Demo.

(** "polygons" first, then "weather", and the other way round. *)
Definition polygons_then_weather : World :=
  snd (weather None after_polygons).

Definition before_both : World := world0 snowflake_client [].
Definition after_first_weather : World := snd (weather None before_both).
Definition weather_then_polygons : World := snd (polygons after_first_weather).
Definition weather_twice : World := snd (weather None after_first_weather).

(** Credentials that name neither a database nor a schema. *)
Definition bare_credentials : PyDict := {[ "account" := VStr "a" ]}.
Definition before_bare : World := world0 bare_credentials [].

(** The instance built on the credentials whose database is a number. *)
Definition numbered_adapter : @Instance demo_sdk :=
  {| _load_args := ∅; _save_args := ∅; _table_name := "weather_data";
     _database := VInt 5; _schema := VStr "observations";
     _connection_parameters := 0; _session := (7 : @Session demo_sdk) |}.

End Shared.

(** ** Corners: an empty schema argument, and counts other than one *)

Module Corners.

Import Demo.

(** "weather" given the empty string as its schema. *)
Definition after_empty_schema : World :=
  snd (instantiate "weather_data" (Some "") None None None (Some 0)
         before_weather).

(** "weather" on backends that answer the count query with 0 and with 2,
    the latter with a second column and a second row. *)
Definition before_zero : World := world0 weather_credentials [[VInt 0]].
Definition after_zero : World := snd (weather None before_zero).

Definition before_two : World :=
  world0 weather_credentials [[VInt 2; VStr "x"]; [VInt 1]].
Definition after_two : World := snd (weather None before_two).

End Corners.


(** ** Properties *)

Section Properties.

Context `{SDK : Snowpark}.

(** *** Python values on small inputs *)

Example join_three :
  join "." [VStr "a"; VStr "b"; VStr "c"] = Ok "a.b.c".
Proof. reflexivity. Qed.

Example join_one : join "." [VStr "a"] = Ok "a".
Proof. reflexivity. Qed.

Example join_number : join "." [VStr "a"; VInt 5; VStr "c"] = Raise TypeError.
Proof. reflexivity. Qed.

Example format_fields :
  format "{a}-{b}!" {[ "a" := VInt (-42); "b" := VBool true ]} = Ok "-42-True!".
Proof. vm_compute. reflexivity. Qed.

Example format_missing : format "{a}" (∅ : PyDict) = Raise KeyError.
Proof. vm_compute. reflexivity. Qed.

Example true_equals_one : Py.equal (VBool true) (VInt 1) = true.
Proof. reflexivity. Qed.

Example text_differs_from_one : Py.equal (VStr "1") (VInt 1) = false.
Proof. reflexivity. Qed.

Example zero_is_falsy : truthy (VInt 0) = false /\ truthy (VStr "") = false.
Proof. split; reflexivity. Qed.

(** *** Construction *)

Lemma _get_session_frame l w r w' :
  _get_session l w = (r, w') ->
  dicts w' = dicts w /\ objs w' = objs w /\
  (calls w' = calls w ++ [CGetActiveSession] \/
   exists p, dicts w !! l = Some p /\
     calls w' = calls w ++ [CGetActiveSession; CBuilderCreate p]).
Proof.
  unfold _get_session, try_except, sdk, bind, read_dict.
  destruct (get_active_session (backend w)) as [[s|e] b] eqn:Hg; simpl.
  - intros [= <- <-]; simpl. auto.
  - destruct (is_SnowparkSessionException e); simpl.
    + destruct (dicts w !! l) as [p|] eqn:Hl; simpl.
      * destruct (builder_create p b) as [r' b'] eqn:Hc; simpl.
        intros [= <- <-]; simpl. split; [done|]. split; [done|].
        right. exists p. split; [done|]. by rewrite <- app_assoc.
      * intros [= <- <-]; simpl. auto.
    + intros [= <- <-]; simpl. auto.
Qed.


Lemma truthy_str_false (s : string) : truthy s = false <-> s = "".
Proof. destruct s; unfold truthy, truthy_str; split; congruence. Qed.

Lemma truthy_dict_false (d : PyDict) : truthy d = false <-> d = ∅.
Proof.
  unfold truthy, truthy_dict. rewrite negb_false_iff, Nat.eqb_eq.
  apply map_size_empty_iff.
Qed.

Lemma truthy_arg (a : option string) : truthy (arg a) = truthy a.
Proof. by destruct a. Qed.

Lemma truthy_resolved explicit e :
  truthy (resolved explicit e) = truthy explicit || truthy e.
Proof.
  unfold resolved. destruct (truthy explicit) eqn:He; simpl.
  - by rewrite truthy_arg.
  - by destruct e.
Qed.

Lemma union_empty_args (given : PyDict) : given ∪ (∅ : PyDict) = given.
Proof. apply (right_id_L ∅ (∪)). Qed.

(** The two resolution blocks of [__init__]. *)
Lemma resolve_block (explicit : option string) (key msg : string) (c : PyDict) w :
  (if negb (truthy explicit) then
     if negb (truthy (c !! key)) then raise (DataSetError msg)
     else getitem c key
   else ret (arg explicit)) w
  = if truthy (resolved explicit (c !! key))
    then (Ok (resolved explicit (c !! key)), w)
    else (Raise (DataSetError msg), w).
Proof.
  rewrite truthy_resolved. unfold resolved, getitem.
  destruct (truthy explicit) eqn:He; simpl; [done|].
  destruct (c !! key) as [v|]; simpl; [|done].
  change (truthy (Some v)) with (truthy v).
  by destruct (truthy v).
Qed.

Lemma init_accepts tn sch db la sa l c w :
  truthy tn = true -> dicts w !! l = Some c -> truthy c = true ->
  truthy (resolved db (c !! "database")) = true ->
  truthy (resolved sch (c !! "schema")) = true ->
  __init__ tn sch db la sa (Some l) w
  = (sess <- _get_session l ;; ret (built tn sch db la sa l c sess))
      (set_dict l ({[ "database" := resolved db (c !! "database");
                      "schema" := resolved sch (c !! "schema") ]} ∪ c) w).
Proof.
  intros Htn Hl Hc Hd Hs. unfold __init__. rewrite Htn; simpl.
  unfold bind at 1. unfold read_dict at 1. rewrite Hl, Hc; simpl.
  unfold bind at 1. rewrite resolve_block, Hd.
  unfold bind at 1. rewrite resolve_block, Hs.
  unfold bind at 1. unfold dict_update at 1. rewrite Hl.
  unfold built, merged, DEFAULT_LOAD_ARGS, DEFAULT_SAVE_ARGS.
  destruct la, sa; simpl; rewrite ?union_empty_args; reflexivity.
Qed.

Lemma init_rejects tn sch db la sa creds w :
  misconfigured tn sch db creds w ->
  exists msg, __init__ tn sch db la sa creds w = (Raise (DataSetError msg), w).
Proof.
  intros H. unfold __init__.
  destruct (truthy tn) eqn:Htn; simpl; [|eauto].
  destruct creds as [l|]; simpl; [|eauto].
  unfold bind at 1. unfold read_dict at 1.
  destruct H as [H|H|l' H Hl|l' c H Hl [Ha Hb]|l' c H Hl [Ha Hb]].
  - apply truthy_str_false in H. congruence.
  - done.
  - simplify_eq. rewrite Hl. simpl. eauto.
  - simplify_eq. rewrite Hl. destruct (truthy c); simpl; [|eauto].
    unfold bind at 1. rewrite resolve_block, truthy_resolved, Ha, Hb. simpl. eauto.
  - simplify_eq. rewrite Hl. destruct (truthy c); simpl; [|eauto].
    unfold bind at 1. rewrite resolve_block.
    destruct (truthy (resolved db _)); [|eauto].
    unfold bind at 1. rewrite resolve_block, truthy_resolved, Ha, Hb. simpl. eauto.
Qed.

Lemma init_Ok_inv tn sch db la sa creds w o w1 :
  __init__ tn sch db la sa creds w = (Ok o, w1) ->
  exists l c,
    creds = Some l /\ dicts w !! l = Some c /\
    truthy tn = true /\ truthy c = true /\
    truthy (resolved db (c !! "database")) = true /\
    truthy (resolved sch (c !! "schema")) = true.
Proof.
  intros H.
  destruct (truthy tn) eqn:Htn.
  2:{ apply truthy_str_false in Htn.
      destruct (init_rejects tn sch db la sa creds w) as [m Hm]; [by constructor|].
      congruence. }
  destruct creds as [l|].
  2:{ destruct (init_rejects tn sch db la sa None w) as [m Hm]; [by constructor 2|].
      congruence. }
  destruct (dicts w !! l) as [c|] eqn:Hl.
  2:{ unfold __init__ in H. rewrite Htn in H. simpl in H.
      unfold bind, read_dict in H. by rewrite Hl in H. }
  destruct (truthy c) eqn:Hc.
  2:{ apply truthy_dict_false in Hc. subst c.
      destruct (init_rejects tn sch db la sa (Some l) w) as [m Hm];
        [by econstructor 3|]. congruence. }
  destruct (truthy (resolved db (c !! "database"))) eqn:Hd.
  2:{ rewrite truthy_resolved in Hd. apply orb_false_elim in Hd.
      destruct (init_rejects tn sch db la sa (Some l) w) as [m Hm];
        [by econstructor 4|]. congruence. }
  destruct (truthy (resolved sch (c !! "schema"))) eqn:Hs.
  2:{ rewrite truthy_resolved in Hs. apply orb_false_elim in Hs.
      destruct (init_rejects tn sch db la sa (Some l) w) as [m Hm];
        [by econstructor 5|]. congruence. }
  eauto 10.
Qed.


Lemma instantiate_Ok_inv tn sch db la sa creds w0 self w1 :
  instantiate tn sch db la sa creds w0 = (Ok self, w1) ->
  exists l c sess w',
    creds = Some l /\ dicts w0 !! l = Some c /\
    truthy tn = true /\ truthy c = true /\
    truthy (resolved db (c !! "database")) = true /\
    truthy (resolved sch (c !! "schema")) = true /\
    _get_session l
      (set_dict l ({[ "database" := resolved db (c !! "database");
                      "schema" := resolved sch (c !! "schema") ]} ∪ c) w0)
      = (Ok sess, w') /\
    objs w0 !! self = None /\
    w1 = alloc_at self (built tn sch db la sa l c sess) w'.
Proof.
  unfold instantiate. unfold bind at 1.
  destruct (__init__ tn sch db la sa creds w0) as [[o|e] w'] eqn:Hi; [|done].
  destruct (init_Ok_inv _ _ _ _ _ _ _ _ _ Hi) as (l & c & -> & Hl & Htn & Hc & Hd & Hs).
  rewrite (init_accepts _ _ _ _ _ _ _ _ Htn Hl Hc Hd Hs) in Hi.
  unfold bind in Hi.
  destruct (_get_session l _) as [[sess|e] w''] eqn:Hg; [|done].
  unfold ret in Hi. injection Hi as <- <-.
  unfold allocate. intros [= <- <-].
  exists l, c, sess, w''. repeat (split; [done|]).
  destruct (_get_session_frame _ _ _ _ Hg) as (_ & Ho & _).
  split; [|reflexivity].
  rewrite Ho. simpl. apply not_elem_of_dom, is_fresh.
Qed.

Lemma constructed tn sch db la sa creds w0 self w1 w :
  instantiate tn sch db la sa creds w0 = (Ok self, w1) ->
  objs w !! self = objs w1 !! self ->
  exists sess,
    objs w !! self
    = Some {| _load_args := merged la; _save_args := merged sa;
              _table_name := tn;
              _database := resolved db (entry creds "database" w0);
              _schema := resolved sch (entry creds "schema" w0);
              _connection_parameters := default 0 creds; _session := sess |}.
Proof.
  intros Hn Hw.
  destruct (instantiate_Ok_inv _ _ _ _ _ _ _ _ _ Hn)
    as (l & c & sess & w' & -> & Hl & _ & _ & _ & _ & _ & _ & ->).
  exists sess. rewrite Hw. simpl. rewrite lookup_insert_eq.
  unfold entry. simpl. rewrite Hl. reflexivity.
Qed.


Lemma format_query (database schema : PyVal) (table_name : string) :
  format query {[ "database" := database; "schema" := schema;
                  "table_name" := VStr table_name ]}
  = Ok (existence_query database schema table_name).
Proof. vm_compute. reflexivity. Qed.

Lemma getattr_at {A} self (attr : Instance -> A) o w :
  objs w !! self = Some o -> getattr self attr w = (Ok (attr o), w).
Proof. intros H. unfold getattr. by rewrite H. Qed.

Lemma bind_getattr {A B} self (attr : Instance -> A) (k : A -> M B) o w :
  objs w !! self = Some o -> bind (getattr self attr) k w = k (attr o) w.
Proof. intros H. unfold bind. by rewrite (getattr_at _ _ _ _ H). Qed.

Lemma _describe_at self o w :
  objs w !! self = Some o ->
  _describe self w
  = (Ok {[ "table_name" := VStr (_table_name o); "database" := _database o;
           "schema" := _schema o ]}, w).
Proof. intros H. unfold _describe. by rewrite !(bind_getattr _ _ _ _ _ H). Qed.

Lemma _load_at self o w :
  objs w !! self = Some o ->
  _load self w
  = (name <- lift (join "." [_database o; _schema o; VStr (_table_name o)]) ;;
     sdk (CTable (_session o) name) (session_table (_session o) name)) w.
Proof. intros H. unfold _load. by rewrite !(bind_getattr _ _ _ _ _ H). Qed.

Lemma objs_sdk {A} c (op : Backend -> result A * Backend) w :
  objs (snd (sdk c op w)) = objs w.
Proof. unfold sdk. by destruct (op (backend w)). Qed.

Lemma bind_cong {A B} (m : M A) (k k' : A -> M B) w :
  (forall a w', m w = (Ok a, w') -> k a w' = k' a w') ->
  bind m k w = bind m k' w.
Proof. intros H. unfold bind. destruct (m w) as [[a|e] w']; auto. Qed.

Lemma bind_assoc {A B C} (m : M A) (k : A -> M B) (k' : B -> M C) w :
  bind (bind m k) k' w = bind m (fun a => bind (k a) k') w.
Proof. unfold bind. by destruct (m w) as [[a|e] w']. Qed.

Lemma _save_native_at self o df w :
  objs w !! self = Some o ->
  _save self (Native df) w = write_table o df w.
Proof.
  intros H. unfold _save. unfold bind at 1. unfold ret at 1.
  by rewrite !(bind_getattr _ _ _ _ _ H).
Qed.

Lemma _save_foreign_at self o pdf w :
  objs w !! self = Some o ->
  _save self (Foreign pdf) w
  = (sp_df <- sdk (CCreateDataframe (_session o) pdf)
                  (session_create_dataframe (_session o) pdf) ;;
     write_table o sp_df) w.
Proof.
  intros H. unfold _save. rewrite bind_assoc, (bind_getattr _ _ _ _ _ H).
  apply bind_cong. intros df w' Hc.
  pose proof (objs_sdk (CCreateDataframe (_session o) pdf)
                (session_create_dataframe (_session o) pdf) w) as Ho.
  rewrite Hc in Ho. simpl in Ho. rewrite <- Ho in H.
  by rewrite !(bind_getattr _ _ _ _ _ H).
Qed.

Lemma _exists_at self o w :
  objs w !! self = Some o ->
  let text := existence_query (_database o) (_schema o) (_table_name o) in
  _exists self w
  = (df <- sdk (CSql (_session o) text) (session_sql (_session o) text) ;;
     rows <- sdk (CCollect df) (collect df) ;;
     cell <- lift (first_cell rows) ;;
     ret (Py.equal cell (VInt 1))) w.
Proof.
  intros H text. unfold _exists. rewrite !(bind_getattr _ _ _ _ _ H).
  rewrite format_query. reflexivity.
Qed.

Lemma instantiate_rejects tn sch db la sa creds w :
  misconfigured tn sch db creds w ->
  exists msg,
    instantiate tn sch db la sa creds w = (Raise (DataSetError msg), w).
Proof.
  intros H. destruct (init_rejects tn sch db la sa creds w H) as [msg Hm].
  exists msg. unfold instantiate, bind. by rewrite Hm.
Qed.

Lemma resolved_explicit (d : string) e : d <> "" -> resolved (Some d) e = VStr d.
Proof. intros Hd. unfold resolved. by destruct d. Qed.

Lemma resolved_from_credentials explicit e :
  truthy explicit = false -> truthy (resolved explicit e) = true ->
  e = Some (resolved explicit e).
Proof.
  intros He. unfold resolved. rewrite He. by destruct e.
Qed.

Lemma absent_falsy (a : option string) :
  a = None \/ a = Some "" -> truthy a = false.
Proof. by intros [-> | ->]. Qed.

(** C1: a construction without a table name, without credentials, or with a
    database or a schema that neither the argument nor the credentials
    supply, raises [DataSetError] at once; the world it leaves is the world
    it found, so the SDK was never called: no session is acquired or
    created. *)
Theorem construction_rejects_missing_configuration tn sch db la sa creds w :
  misconfigured tn sch db creds w ->
  exists msg w',
    instantiate tn sch db la sa creds w = (Raise (DataSetError msg), w') /\
    calls w' = calls w /\ backend w' = backend w /\ w' = w.
Proof.
  intros H. destruct (instantiate_rejects tn sch db la sa creds w H) as [msg Hm].
  exists msg, w. by rewrite Hm.
Qed.

(** C2: after a successful construction the database and the schema of the
    adapter are the explicit arguments when these are given and not empty,
    and the credentials' entries when the arguments are absent or empty:
    [if not schema] sends an empty argument the way of a missing one. *)
Theorem resolution_prefers_explicit_arguments
    tn sch db la sa creds w0 self w1 :
  instantiate tn sch db la sa creds w0 = (Ok self, w1) ->
  exists o l c,
    objs w1 !! self = Some o /\ creds = Some l /\ dicts w0 !! l = Some c /\
    (forall d, db = Some d -> d <> "" -> _database o = VStr d) /\
    (db = None \/ db = Some "" -> c !! "database" = Some (_database o)) /\
    (forall s, sch = Some s -> s <> "" -> _schema o = VStr s) /\
    (sch = None \/ sch = Some "" -> c !! "schema" = Some (_schema o)).
Proof.
  intros Hn.
  destruct (instantiate_Ok_inv _ _ _ _ _ _ _ _ _ Hn)
    as (l & c & sess & w' & -> & Hl & _ & _ & Hd & Hs & _ & _ & ->).
  exists (built tn sch db la sa l c sess), l, c. simpl.
  rewrite lookup_insert_eq. repeat (split; [done|]).
  split; [by intros d -> Hne; apply resolved_explicit|].
  split; [by intros Ha; apply resolved_from_credentials; [apply absent_falsy|]|].
  split; [by intros d -> Hne; apply resolved_explicit|].
  by intros Ha; apply resolved_from_credentials; [apply absent_falsy|].
Qed.


(** *** Methods never write to the object store *)

Lemma keeps_ret {A} (a : A) : keeps_objs (ret a).
Proof. by intros w. Qed.

Lemma keeps_lift {A} (r : result A) : keeps_objs (lift r).
Proof. by intros w. Qed.

Lemma keeps_getattr {A} self (attr : Instance -> A) :
  keeps_objs (getattr self attr).
Proof. intros w. unfold getattr. by destruct (objs w !! self). Qed.

Lemma keeps_sdk {A} c (op : Backend -> result A * Backend) :
  keeps_objs (sdk c op).
Proof. intros w. apply objs_sdk. Qed.

Lemma keeps_bind {A B} (m : M A) (k : A -> M B) :
  keeps_objs m -> (forall a, keeps_objs (k a)) -> keeps_objs (bind m k).
Proof.
  intros Hm Hk w. unfold bind. specialize (Hm w).
  destruct (m w) as [[a|e] w']; simpl in *; [|done].
  by rewrite Hk.
Qed.

Create HintDb frame.
#[local] Hint Resolve keeps_ret keeps_lift keeps_getattr keeps_sdk : frame.

Ltac frame :=
  repeat first
    [ apply keeps_bind; [|intros ?]
    | match goal with |- keeps_objs (match ?d with _ => _ end) => destruct d end
    | solve [auto with frame] ].

Lemma keeps_describe self : keeps_objs (_describe self).
Proof. unfold _describe. frame. Qed.

Lemma keeps_load self : keeps_objs (_load self).
Proof. unfold _load. frame. Qed.

Lemma keeps_save self data : keeps_objs (_save self data).
Proof. unfold _save. frame. Qed.

Lemma keeps_exists self : keeps_objs (_exists self).
Proof. unfold _exists. frame. Qed.

Lemma run_op_objs self op w : objs (run_op self op w) = objs w.
Proof.
  destruct op; simpl;
    [apply keeps_load|apply keeps_save|apply keeps_exists|apply keeps_describe].
Qed.

Lemma run_ops_objs ops w : objs (run_ops ops w) = objs w.
Proof.
  revert w. induction ops as [|[self op] ops IH]; intros w; [done|].
  unfold run_ops in *. simpl. by rewrite IH, run_op_objs.
Qed.

(** C7: table name, database and schema are fixed by the construction:
    after any sequence of load, save, exists and describe calls, on this
    adapter or on others, the three attributes still hold the values
    resolved when the adapter was built. *)
Theorem resolved_configuration_is_fixed tn sch db la sa creds w0 self w1 :
  instantiate tn sch db la sa creds w0 = (Ok self, w1) ->
  forall ops,
    _table_name <$> objs (run_ops ops w1) !! self = Some tn /\
    _database <$> objs (run_ops ops w1) !! self
      = Some (resolved db (entry creds "database" w0)) /\
    _schema <$> objs (run_ops ops w1) !! self
      = Some (resolved sch (entry creds "schema" w0)).
Proof.
  intros Hn ops.
  destruct (constructed _ _ _ _ _ _ _ _ _ (run_ops ops w1) Hn) as [sess Ho].
  { by rewrite run_ops_objs. }
  by rewrite Ho.
Qed.

(** C9: describing an adapter returns the mapping of its table name,
    database and schema, with the values resolved at construction, and
    changes nothing; any number of calls in a row return that same
    mapping. *)
Theorem describe_is_idempotent tn sch db la sa creds w0 self w1 w :
  instantiate tn sch db la sa creds w0 = (Ok self, w1) ->
  objs w !! self = objs w1 !! self ->
  forall n,
    describe_repeatedly self n w
    = (Ok (replicate n
             {[ "table_name" := VStr tn;
                "database" := resolved db (entry creds "database" w0);
                "schema" := resolved sch (entry creds "schema" w0) ]}), w).
Proof.
  intros Hn Hw n.
  destruct (constructed _ _ _ _ _ _ _ _ _ w Hn Hw) as [sess Ho].
  induction n as [|n IH]; [done|].
  simpl. unfold bind at 1. rewrite (_describe_at _ _ _ Ho).
  unfold bind at 1. by rewrite IH.
Qed.

(** *** The existence check *)

Lemma _exists_run self o w df b1 rows b2 :
  objs w !! self = Some o ->
  let text := existence_query (_database o) (_schema o) (_table_name o) in
  session_sql (_session o) text (backend w) = (Ok df, b1) ->
  collect df b1 = (Ok rows, b2) ->
  _exists self w
  = (match first_cell rows with
     | Ok cell => Ok (Py.equal cell (VInt 1))
     | Raise e => Raise e
     end,
     {| dicts := dicts w; objs := objs w; backend := b2;
        calls := calls w ++ [CSql (_session o) text; CCollect df] |}).
Proof.
  intros Ho text Hq Hc. rewrite (_exists_at _ _ _ Ho). fold text.
  unfold bind at 1. unfold sdk at 1. rewrite Hq.
  unfold bind at 1. unfold sdk at 1. simpl. rewrite Hc.
  unfold bind, lift, ret. rewrite <- app_assoc. simpl.
  by destruct (first_cell rows).
Qed.

Lemma eq_count_one (count : Z) : Py.equal (VInt count) (VInt 1) = true <-> count = 1%Z.
Proof. simpl. apply Z.eqb_eq. Qed.

(** C3: when the count query, whose text names the resolved database,
    schema and table name, is answered with rows whose first row starts with
    the integer [count], [_exists] returns true exactly when [count] is
    one: false for zero, false for two or more.  The SDK sees the query and
    its collection, nothing else. *)
Theorem exists_iff_count_is_one
    tn sch db la sa creds w0 self w1 w sess df b1 row rest b2 count :
  instantiate tn sch db la sa creds w0 = (Ok self, w1) ->
  objs w !! self = objs w1 !! self ->
  _session <$> objs w !! self = Some sess ->
  let text :=
    existence_query (resolved db (entry creds "database" w0))
                    (resolved sch (entry creds "schema" w0)) tn in
  session_sql sess text (backend w) = (Ok df, b1) ->
  collect df b1 = (Ok ((VInt count :: row) :: rest), b2) ->
  exists b w',
    _exists self w = (Ok b, w') /\
    (b = true <-> count = 1%Z) /\
    calls w' = calls w ++ [CSql sess text; CCollect df].
Proof.
  intros Hn Hw Hs text Hq Hc.
  destruct (constructed _ _ _ _ _ _ _ _ _ w Hn Hw) as [sess' Ho].
  rewrite Ho in Hs. simpl in Hs. injection Hs as ->.
  rewrite (_exists_run _ _ _ df b1 _ b2 Ho Hq Hc).
  eexists _, _. split; [reflexivity|]. split; [apply eq_count_one|done].
Qed.

(** C10: [_exists] takes the first cell of the first row without looking
    at the size of the answer.  Given that the query runs and is collected,
    it returns a boolean exactly when the answer has a first row with a
    first column, and raises [IndexError] otherwise, in particular on an
    empty answer. *)
Theorem exists_needs_a_first_cell self o w df b1 rows b2 :
  objs w !! self = Some o ->
  session_sql (_session o)
    (existence_query (_database o) (_schema o) (_table_name o)) (backend w)
    = (Ok df, b1) ->
  collect df b1 = (Ok rows, b2) ->
  ((exists b, fst (_exists self w) = Ok b) <->
   (exists cell row rest, rows = (cell :: row) :: rest)) /\
  (rows = [] -> fst (_exists self w) = Raise IndexError) /\
  ((forall cell row rest, rows <> (cell :: row) :: rest) ->
   fst (_exists self w) = Raise IndexError).
Proof.
  intros Ho Hq Hc. rewrite (_exists_run _ _ _ df b1 rows b2 Ho Hq Hc). simpl.
  destruct rows as [|[|cell row] rest]; simpl.
  - split; [|done]. split; [by intros [b ?]|by intros (? & ? & ? & ?)].
  - split; [|done]. split; [by intros [b ?]|by intros (? & ? & ? & ?)].
  - split; [split; eauto|]. split; [done|]. intros H. by destruct (H cell row rest).
Qed.

(** *** Saving and loading *)

(** C4: [_save] writes to the table named by the three resolved parts,
    database, schema and table name, and hands the write call the save
    arguments the adapter was built with, as they were given (none when
    none were given).  A native dataframe is written as it is; anything
    else is first turned into a dataframe by the session. *)
Theorem save_writes_qualified_table
    tn sch db la sa creds w0 self w1 w sess :
  instantiate tn sch db la sa creds w0 = (Ok self, w1) ->
  objs w !! self = objs w1 !! self ->
  _session <$> objs w !! self = Some sess ->
  let name := [resolved db (entry creds "database" w0);
               resolved sch (entry creds "schema" w0); VStr tn] in
  let kwargs := match sa with Some given => given | None => ∅ end in
  (forall df,
     _save self (Native df) w
     = sdk (CSaveAsTable df name kwargs) (save_as_table df name kwargs) w) /\
  (forall pdf,
     _save self (Foreign pdf) w
     = (df <- sdk (CCreateDataframe sess pdf)
                  (session_create_dataframe sess pdf) ;;
        sdk (CSaveAsTable df name kwargs) (save_as_table df name kwargs)) w).
Proof.
  intros Hn Hw Hs name kwargs.
  destruct (constructed _ _ _ _ _ _ _ _ _ w Hn Hw) as [sess' Ho].
  rewrite Ho in Hs. simpl in Hs. injection Hs as ->.
  split.
  - intros df. rewrite (_save_native_at _ _ _ _ Ho). unfold write_table. simpl.
    by destruct sa.
  - intros pdf. rewrite (_save_foreign_at _ _ _ _ Ho). unfold write_table. simpl.
    by destruct sa.
Qed.

(** C5, for parts that are all strings: the table name is one by the
    type of the argument, the resolved database and schema by hypothesis.
    [_load] then returns what the session's [table] returns for the name
    made of database, schema and table name joined by ".", and that call
    is the only one it makes. *)
Theorem load_returns_table_of_qualified_name
    tn sch db la sa creds w0 self w1 w sess d s :
  instantiate tn sch db la sa creds w0 = (Ok self, w1) ->
  objs w !! self = objs w1 !! self ->
  _session <$> objs w !! self = Some sess ->
  resolved db (entry creds "database" w0) = VStr d ->
  resolved sch (entry creds "schema" w0) = VStr s ->
  let name := d +:+ "." +:+ s +:+ "." +:+ tn in
  _load self w = sdk (CTable sess name) (session_table sess name) w.
Proof.
  intros Hn Hw Hs Hd Hsch name.
  destruct (constructed _ _ _ _ _ _ _ _ _ w Hn Hw) as [sess' Ho].
  rewrite Ho in Hs. simpl in Hs. injection Hs as ->.
  rewrite (_load_at _ _ _ Ho). simpl. by rewrite Hd, Hsch.
Qed.

(** *** The load arguments *)

(** What [__init__] does is decided without the load arguments: it raises,
    or it builds the instance whose only trace of them is [_load_args]. *)
Lemma init_outcome tn sch db sa creds w :
  exists (r : result (loc * PyDict * Session)) w',
    forall la,
      __init__ tn sch db la sa creds w
      = (match r with
         | Ok (l, c, sess) => Ok (built tn sch db la sa l c sess)
         | Raise e => Raise e
         end, w').
Proof.
  destruct (truthy tn) eqn:Htn.
  2:{ eexists (Raise _), w. intros la. unfold __init__. by rewrite Htn. }
  destruct creds as [l|].
  2:{ eexists (Raise _), w. intros la. unfold __init__. by rewrite Htn. }
  destruct (dicts w !! l) as [c|] eqn:Hl.
  2:{ eexists (Raise _), w. intros la. unfold __init__. rewrite Htn. simpl.
      unfold bind, read_dict. by rewrite Hl. }
  destruct (truthy c) eqn:Hc.
  2:{ eexists (Raise _), w. intros la. unfold __init__. rewrite Htn. simpl.
      unfold bind, read_dict. by rewrite Hl, Hc. }
  destruct (truthy (resolved db (c !! "database"))) eqn:Hd.
  2:{ eexists (Raise _), w. intros la. unfold __init__. rewrite Htn. simpl.
      unfold bind at 1. unfold read_dict at 1. rewrite Hl, Hc. simpl.
      unfold bind at 1. by rewrite resolve_block, Hd. }
  destruct (truthy (resolved sch (c !! "schema"))) eqn:Hs.
  2:{ eexists (Raise _), w. intros la. unfold __init__. rewrite Htn. simpl.
      unfold bind at 1. unfold read_dict at 1. rewrite Hl, Hc. simpl.
      unfold bind at 1. rewrite resolve_block, Hd.
      unfold bind at 1. by rewrite resolve_block, Hs. }
  destruct (_get_session l
              (set_dict l ({[ "database" := resolved db (c !! "database");
                              "schema" := resolved sch (c !! "schema") ]} ∪ c) w))
    as [[sess|e] w'] eqn:Hg.
  - exists (Ok (l, c, sess)), w'. intros la.
    rewrite (init_accepts _ _ _ _ _ _ _ _ Htn Hl Hc Hd Hs).
    unfold bind. by rewrite Hg.
  - exists (Raise e), w'. intros la.
    rewrite (init_accepts _ _ _ _ _ _ _ _ Htn Hl Hc Hd Hs).
    unfold bind. by rewrite Hg.
Qed.

Lemma erase_inv w w' :
  erase w = erase w' ->
  dicts w = dicts w' /\ backend w = backend w' /\ calls w = calls w' /\
  forall l, forget <$> objs w !! l = forget <$> objs w' !! l.
Proof.
  unfold erase. intros [= Hd Ho Hb Hc]. repeat (split; [done|]).
  intros l. by rewrite <- !lookup_fmap, Ho.
Qed.

Lemma blind_ret {A} (a : A) : blind (ret a).
Proof. by intros w w' H. Qed.

Lemma blind_lift {A} (r : result A) : blind (lift r).
Proof. by intros w w' H. Qed.

Lemma blind_sdk {A} c (op : Backend -> result A * Backend) : blind (sdk c op).
Proof.
  intros w w' H. pose proof (erase_inv _ _ H) as (Hd & Hb & Hc & _).
  injection H as _ Ho _ _.
  unfold sdk. rewrite Hb. destruct (op (backend w')) as [r b]. simpl.
  split; [done|]. unfold erase. simpl. by rewrite Hd, Ho, Hc.
Qed.

Lemma blind_getattr {A} self (attr : Instance -> A) :
  (forall o, attr (forget o) = attr o) -> blind (getattr self attr).
Proof.
  intros Hattr w w' H. pose proof (erase_inv _ _ H) as (_ & _ & _ & Ho).
  specialize (Ho self). unfold getattr.
  destruct (objs w !! self) as [o|], (objs w' !! self) as [o'|];
    try done.
  change (Some (forget o) = Some (forget o')) in Ho.
  assert (forget o = forget o') as Hf by congruence.
  split; [|done].
  cbn [fst]. f_equal. by rewrite <- (Hattr o), <- (Hattr o'), Hf.
Qed.

Lemma blind_bind {A B} (m : M A) (k : A -> M B) :
  blind m -> (forall a, blind (k a)) -> blind (bind m k).
Proof.
  intros Hm Hk w w' H. unfold bind. destruct (Hm w w' H) as [Hr Hw].
  destruct (m w) as [[a|e] w1], (m w') as [[a'|e'] w1'];
    simpl in *; try done.
  - injection Hr as ->. by apply Hk.
  - by injection Hr as ->.
Qed.

Create HintDb blind.
#[local] Hint Resolve blind_ret blind_lift blind_sdk : blind.
#[local] Hint Extern 1 (blind (getattr _ _)) =>
  (apply blind_getattr; intros []; reflexivity) : blind.

Ltac blind :=
  repeat first
    [ apply blind_bind; [|intros ?]
    | match goal with |- blind (match ?d with _ => _ end) => destruct d end
    | solve [auto with blind] ].

Lemma blind_describe self : blind (_describe self).
Proof. unfold _describe. blind. Qed.

Lemma blind_load self : blind (_load self).
Proof. unfold _load. blind. Qed.

Lemma blind_save self data : blind (_save self data).
Proof. unfold _save. blind. Qed.

Lemma blind_exists self : blind (_exists self).
Proof. unfold _exists. blind. Qed.

Lemma run_op_erase self op w w' :
  erase w = erase w' -> erase (run_op self op w) = erase (run_op self op w').
Proof.
  intros H. destruct op; simpl;
    [apply blind_load|apply blind_save|apply blind_exists|apply blind_describe];
    exact H.
Qed.

Lemma run_ops_erase ops w w' :
  erase w = erase w' -> erase (run_ops ops w) = erase (run_ops ops w').
Proof.
  revert w w'. induction ops as [|[self op] ops IH]; intros w w' H; [done|].
  unfold run_ops in *. simpl. by apply IH, run_op_erase.
Qed.

(** Two constructions that differ in the load arguments alone end alike:
    the same exception, or the same reference in worlds that differ in the
    stored load arguments only. *)
Lemma instantiate_erase tn sch db la1 la2 sa creds w :
  fst (instantiate tn sch db la1 sa creds w)
  = fst (instantiate tn sch db la2 sa creds w) /\
  erase (snd (instantiate tn sch db la1 sa creds w))
  = erase (snd (instantiate tn sch db la2 sa creds w)).
Proof.
  unfold instantiate.
  destruct (init_outcome tn sch db sa creds w) as (r & w' & H).
  unfold bind. rewrite !H.
  destruct r as [[[l c] sess]|e]; [|done].
  unfold allocate, erase. simpl. split; [done|]. by rewrite !fmap_insert.
Qed.

(** C8: the load arguments have no influence on loading.  Build an
    adapter, let the caller run any operations, then load: for any two
    choices of load arguments and everything else alike, the result (or the
    exception) is the same, and so are the SDK calls, the backend and the
    dictionaries. *)
Theorem load_ignores_load_args tn sch db la1 la2 sa creds ops w :
  fst (load_after ops tn sch db la1 sa creds w)
  = fst (load_after ops tn sch db la2 sa creds w) /\
  calls (snd (load_after ops tn sch db la1 sa creds w))
  = calls (snd (load_after ops tn sch db la2 sa creds w)) /\
  backend (snd (load_after ops tn sch db la1 sa creds w))
  = backend (snd (load_after ops tn sch db la2 sa creds w)) /\
  dicts (snd (load_after ops tn sch db la1 sa creds w))
  = dicts (snd (load_after ops tn sch db la2 sa creds w)).
Proof.
  unfold load_after.
  destruct (instantiate_erase tn sch db la1 la2 sa creds w) as [Hr Hw].
  destruct (instantiate tn sch db la1 sa creds w) as [[self|e] w1],
           (instantiate tn sch db la2 sa creds w) as [[self'|e'] w2];
    simpl in Hr, Hw; try done.
  - injection Hr as <-.
    destruct (blind_load self _ _ (run_ops_erase ops _ _ Hw)) as [Hl He].
    destruct (erase_inv _ _ He) as (? & ? & ? & _). done.
  - injection Hr as <-.
    destruct (erase_inv _ _ Hw) as (? & ? & ? & _). done.
Qed.

End Properties.

(** ** Further properties of the construction and of the operations *)

Section Further.
Context `{SDK : Snowpark}.

Lemma truthy_str_true (s : string) : s <> "" -> truthy s = true.
Proof. by destruct s. Qed.

Lemma truthy_dict_true (d : PyDict) : d <> ∅ -> truthy d = true.
Proof.
  intros H. destruct (truthy d) eqn:E; [done|].
  by apply truthy_dict_false in E.
Qed.

Lemma resolvable_truthy explicit e :
  ~ unresolvable explicit e -> truthy (resolved explicit e) = true.
Proof.
  intros H. rewrite truthy_resolved. unfold unresolvable in H.
  destruct (truthy explicit), (truthy e); try done. by destruct H.
Qed.

Lemma sound_configuration tn sch db l c w :
  dicts w !! l = Some c ->
  truthy tn = true -> truthy c = true ->
  truthy (resolved db (c !! "database")) = true ->
  truthy (resolved sch (c !! "schema")) = true ->
  ~ misconfigured tn sch db (Some l) w.
Proof.
  intros Hl Ht Hc Hd Hs H.
  destruct H as [->|?|l' [= <-] Hl'|l' c' [= <-] Hl' [Ha Hb]
                 |l' c' [= <-] Hl' [Ha Hb]]; try done.
  - rewrite Hl in Hl'. injection Hl' as ->. done.
  - rewrite Hl in Hl'. injection Hl' as ->.
    by rewrite truthy_resolved, Ha, Hb in Hd.
  - rewrite Hl in Hl'. injection Hl' as ->.
    by rewrite truthy_resolved, Ha, Hb in Hs.
Qed.

Lemma well_configured tn sch db l c w :
  dicts w !! l = Some c -> ~ misconfigured tn sch db (Some l) w ->
  truthy tn = true /\ truthy c = true /\
  truthy (resolved db (c !! "database")) = true /\
  truthy (resolved sch (c !! "schema")) = true.
Proof.
  intros Hl H. repeat split.
  - apply truthy_str_true. intros ->. apply H. by constructor.
  - apply truthy_dict_true. intros ->. apply H. by econstructor 3.
  - apply resolvable_truthy. intros Hu. apply H. by econstructor 4.
  - apply resolvable_truthy. intros Hu. apply H. by econstructor 5.
Qed.

Lemma instantiate_valid tn sch db la sa l c w :
  dicts w !! l = Some c -> ~ misconfigured tn sch db (Some l) w ->
  instantiate tn sch db la sa (Some l) w
  = (sess <- _get_session l ;; allocate (built tn sch db la sa l c sess))
      (set_dict l (updated sch db c) w).
Proof.
  intros Hl H. destruct (well_configured _ _ _ _ _ _ Hl H) as (Ht & Hc & Hd & Hs).
  unfold instantiate. unfold bind at 1.
  rewrite (init_accepts _ _ _ _ _ _ _ _ Ht Hl Hc Hd Hs).
  unfold updated, bind.
  by destruct (_get_session l _) as [[sess|e] w'].
Qed.

Lemma _get_session_active l w s b :
  get_active_session (backend w) = (Ok s, b) ->
  _get_session l w = (Ok s, after_calls [CGetActiveSession] b w).
Proof.
  intros H. unfold _get_session, try_except, sdk. by rewrite H.
Qed.

Lemma _get_session_create l w b p :
  get_active_session (backend w) = (Raise SnowparkSessionException, b) ->
  dicts w !! l = Some p ->
  _get_session l w
  = (fst (builder_create p b),
     after_calls [CGetActiveSession; CBuilderCreate p]
       (snd (builder_create p b)) w).
Proof.
  intros H Hl. unfold _get_session, try_except, sdk, bind, read_dict.
  rewrite H. simpl. rewrite Hl. simpl.
  destruct (builder_create p b) as [r b']. simpl.
  unfold after_calls. by rewrite <- app_assoc.
Qed.

Lemma _get_session_other l w e b :
  get_active_session (backend w) = (Raise e, b) ->
  is_SnowparkSessionException e = false ->
  _get_session l w = (Raise e, after_calls [CGetActiveSession] b w).
Proof.
  intros H He. unfold _get_session, try_except, sdk. rewrite H. by rewrite He.
Qed.


Lemma updated_insert sch db (c : PyDict) :
  updated sch db c
  = <[ "database" := resolved db (c !! "database") ]>
      (<[ "schema" := resolved sch (c !! "schema") ]> c).
Proof.
  unfold updated. rewrite <- insert_union_l. f_equal.
  rewrite <- insert_union_singleton_l. done.
Qed.

Lemma updated_database sch db (c : PyDict) :
  updated sch db c !! "database" = Some (resolved db (c !! "database")).
Proof. rewrite updated_insert. apply lookup_insert_eq. Qed.

Lemma updated_schema sch db (c : PyDict) :
  updated sch db c !! "schema" = Some (resolved sch (c !! "schema")).
Proof.
  rewrite updated_insert. rewrite lookup_insert_ne by done.
  apply lookup_insert_eq.
Qed.

Lemma updated_other sch db (c : PyDict) k :
  k <> "database" -> k <> "schema" -> updated sch db c !! k = c !! k.
Proof.
  intros H1 H2. rewrite updated_insert. by rewrite !lookup_insert_ne.
Qed.

Lemma resolved_again explicit e :
  resolved explicit (Some (resolved explicit e)) = resolved explicit e.
Proof. unfold resolved. by destruct (truthy explicit). Qed.

Lemma resolved_inherits explicit v :
  truthy explicit = false -> resolved explicit (Some v) = v.
Proof. intros H. unfold resolved. by rewrite H. Qed.

Lemma updated_again sch db (c : PyDict) :
  updated sch db (updated sch db c) = updated sch db c.
Proof.
  rewrite (updated_insert sch db (updated sch db c)).
  rewrite updated_database, updated_schema, !resolved_again.
  rewrite (insert_id (updated sch db c) "schema") by apply updated_schema.
  apply insert_id, updated_database.
Qed.

(** Everything a successful construction leaves behind. *)
Lemma construction_result tn sch db la sa creds w0 self w1 :
  instantiate tn sch db la sa creds w0 = (Ok self, w1) ->
  exists l c sess,
    creds = Some l /\ dicts w0 !! l = Some c /\
    objs w0 !! self = None /\
    objs w1 = <[self := built tn sch db la sa l c sess]> (objs w0) /\
    dicts w1 = <[l := updated sch db c]> (dicts w0).
Proof.
  intros Hn.
  destruct (instantiate_Ok_inv _ _ _ _ _ _ _ _ _ Hn)
    as (l & c & sess & w' & -> & Hl & _ & _ & _ & _ & Hg & Hf & ->).
  destruct (_get_session_frame _ _ _ _ Hg) as (Hd & Ho & _).
  exists l, c, sess. simpl. rewrite Hd, Ho. done.
Qed.


(** *** Sessions *)

(** X1: with sound configuration and an active session, the construction
    succeeds, the adapter holds that session, and the only SDK call is the
    request for the active session: the credentials are never shown to the
    SDK. *)
Theorem construction_reuses_active_session tn sch db la sa l c w s b :
  dicts w !! l = Some c ->
  ~ misconfigured tn sch db (Some l) w ->
  get_active_session (backend w) = (Ok s, b) ->
  exists self w1,
    instantiate tn sch db la sa (Some l) w = (Ok self, w1) /\
    _session <$> objs w1 !! self = Some s /\
    calls w1 = calls w ++ [CGetActiveSession] /\
    backend w1 = b.
Proof.
  intros Hl Hc Ha. rewrite (instantiate_valid _ _ _ _ _ _ _ _ Hl Hc).
  unfold bind. rewrite (_get_session_active l (set_dict l (updated sch db c) w) s b Ha).
  eexists _, _. split; [reflexivity|]. simpl.
  by rewrite lookup_insert_eq.
Qed.

(** X2: with sound configuration and no active session, the session is
    created from the caller's credentials in which "database" and "schema"
    hold the resolved values and every other key is as the caller gave it;
    the adapter holds the session so created. *)
Theorem construction_creates_session_from_resolved_credentials
    tn sch db la sa l c w b s b' :
  dicts w !! l = Some c ->
  ~ misconfigured tn sch db (Some l) w ->
  get_active_session (backend w) = (Raise SnowparkSessionException, b) ->
  builder_create (updated sch db c) b = (Ok s, b') ->
  exists self w1 params,
    instantiate tn sch db la sa (Some l) w = (Ok self, w1) /\
    _session <$> objs w1 !! self = Some s /\
    calls w1 = calls w ++ [CGetActiveSession; CBuilderCreate params] /\
    backend w1 = b' /\
    params !! "database" = _database <$> objs w1 !! self /\
    params !! "schema" = _schema <$> objs w1 !! self /\
    (forall k, k <> "database" -> k <> "schema" -> params !! k = c !! k).
Proof.
  intros Hl Hc Ha Hb. rewrite (instantiate_valid _ _ _ _ _ _ _ _ Hl Hc).
  unfold bind.
  rewrite (_get_session_create l (set_dict l (updated sch db c) w) b (updated sch db c) Ha)
    by (simpl; apply lookup_insert_eq).
  rewrite Hb. eexists _, _, (updated sch db c). split; [reflexivity|]. simpl.
  rewrite lookup_insert_eq. simpl.
  repeat (split; [done|]).
  split; [apply updated_database|].
  split; [apply updated_schema|]. apply updated_other.
Qed.

(** X3: with sound configuration, a construction can only fail in the
    session step, and it raises what the SDK raised.  No adapter comes to
    exist, but the caller's credentials have already been overwritten with
    the resolved database and schema. *)
Theorem failed_session_keeps_credentials_update
    tn sch db la sa l c w e w1 :
  dicts w !! l = Some c ->
  ~ misconfigured tn sch db (Some l) w ->
  instantiate tn sch db la sa (Some l) w = (Raise e, w1) ->
  objs w1 = objs w /\
  dicts w1 = <[l := updated sch db c]> (dicts w) /\
  ((exists b, get_active_session (backend w) = (Raise e, b) /\
              is_SnowparkSessionException e = false) \/
   (exists b, get_active_session (backend w)
              = (Raise SnowparkSessionException, b) /\
              fst (builder_create (updated sch db c) b) = Raise e)).
Proof.
  intros Hl Hc. rewrite (instantiate_valid _ _ _ _ _ _ _ _ Hl Hc).
  unfold bind.
  destruct (get_active_session (backend w)) as [[s|e0] b] eqn:Ha.
  - by rewrite (_get_session_active l (set_dict l (updated sch db c) w) s b Ha).
  - destruct (is_SnowparkSessionException e0) eqn:He.
    + destruct e0; try done.
      rewrite (_get_session_create l (set_dict l (updated sch db c) w) b (updated sch db c) Ha)
        by (simpl; apply lookup_insert_eq).
      destruct (builder_create (updated sch db c) b) as [[s|e1] b'] eqn:Hb;
        simpl; [done|].
      intros [= <- <-]. simpl. repeat (split; [done|]).
      right. exists b. by rewrite Hb.
    + rewrite (_get_session_other l (set_dict l (updated sch db c) w) e0 b Ha He).
      intros [= <- <-]. simpl. repeat (split; [done|]).
      left. by exists b.
Qed.

(** *** Error messages *)

(** X4: the checks of [__init__] run in a fixed order and the first one
    that fails decides the message: table name, then credentials, then
    database, then schema.  A construction that lacks both database and
    schema complains about the database. *)
Theorem construction_error_names_first_missing_item
    tn sch db la sa creds w msg :
  first_missing tn sch db creds w msg ->
  instantiate tn sch db la sa creds w = (Raise (DataSetError msg), w).
Proof.
  intros H. unfold instantiate, __init__. unfold bind at 1.
  destruct H as [->|Ht ->|l Ht -> Hl|l c Ht -> Hl Hne [Ha Hb]
                 |l c Ht -> Hl Hne Hd [Ha Hb]]; [done|..];
    rewrite (truthy_str_true _ Ht); simpl; [done|..];
    unfold bind at 1; unfold read_dict at 1; rewrite Hl; [done|..];
    rewrite (truthy_dict_true _ Hne); simpl;
    unfold bind at 1; rewrite resolve_block.
  - by rewrite truthy_resolved, Ha, Hb.
  - rewrite (resolvable_truthy _ _ Hd).
    unfold bind at 1. rewrite resolve_block.
    by rewrite truthy_resolved, Ha, Hb.
Qed.


(** *** Adapters that share one credentials dictionary *)

(** X5: an adapter built from a credentials dictionary that an earlier
    construction has written into takes, for a schema or database it is not
    given itself, the value the earlier adapter resolved, also when that
    value came from the earlier adapter's own explicit argument and not
    from the credentials. *)
Theorem later_adapter_inherits_resolved_values
    tnA schA dbA laA saA l w0 a w1 w tnB schB dbB laB saB b w2 :
  instantiate tnA schA dbA laA saA (Some l) w0 = (Ok a, w1) ->
  dicts w !! l = dicts w1 !! l ->
  instantiate tnB schB dbB laB saB (Some l) w = (Ok b, w2) ->
  (truthy schB = false ->
   _schema <$> objs w2 !! b = _schema <$> objs w1 !! a) /\
  (truthy dbB = false ->
   _database <$> objs w2 !! b = _database <$> objs w1 !! a).
Proof.
  intros HA Hw HB.
  destruct (construction_result _ _ _ _ _ _ _ _ _ HA)
    as (? & c & sA & [= <-] & Hl & _ & HoA & HdA).
  destruct (construction_result _ _ _ _ _ _ _ _ _ HB)
    as (? & cB & sB & [= <-] & HlB & _ & HoB & _).
  rewrite Hw, HdA, lookup_insert_eq in HlB. injection HlB as <-.
  rewrite HoA, HoB, !lookup_insert_eq. simpl.
  rewrite updated_schema, updated_database.
  split; intros H; by rewrite (resolved_inherits _ _ H).
Qed.

(** X6: building a second adapter from the same credentials dictionary
    leaves the first adapter's attributes alone, but the dictionary the
    first adapter keeps as its connection parameters now carries the second
    adapter's database and schema. *)
Theorem connection_parameters_follow_later_adapter
    tnA schA dbA laA saA l w0 a w1 tnB schB dbB laB saB b w2 :
  instantiate tnA schA dbA laA saA (Some l) w0 = (Ok a, w1) ->
  instantiate tnB schB dbB laB saB (Some l) w1 = (Ok b, w2) ->
  a <> b /\
  exists oA params,
    objs w1 !! a = Some oA /\ objs w2 !! a = Some oA /\
    dicts w2 !! _connection_parameters oA = Some params /\
    params !! "database" = _database <$> objs w2 !! b /\
    params !! "schema" = _schema <$> objs w2 !! b.
Proof.
  intros HA HB.
  destruct (construction_result _ _ _ _ _ _ _ _ _ HA)
    as (? & c & sA & [= <-] & Hl & _ & HoA & HdA).
  destruct (construction_result _ _ _ _ _ _ _ _ _ HB)
    as (? & cB & sB & [= <-] & HlB & Hfresh & HoB & HdB).
  assert (a <> b) as Hab.
  { intros ->. by rewrite HoA, lookup_insert_eq in Hfresh. }
  split; [done|].
  exists (built tnA schA dbA laA saA l c sA), (updated schB dbB cB).
  rewrite HoB, HoA, lookup_insert_eq.
  rewrite lookup_insert_ne by done. rewrite !lookup_insert_eq. simpl.
  rewrite HdB, lookup_insert_eq.
  repeat (split; [done|]).
  split; [apply updated_database|apply updated_schema].
Qed.

(** X7: the write into the credentials is idempotent.  Building an adapter
    again from the same dictionary with the same schema and database
    arguments changes no dictionary and resolves the same database and
    schema as the first time. *)
Theorem reconstruction_is_idempotent
    tn sch db la sa l w0 a w1 tn' la' sa' b w2 :
  instantiate tn sch db la sa (Some l) w0 = (Ok a, w1) ->
  instantiate tn' sch db la' sa' (Some l) w1 = (Ok b, w2) ->
  dicts w2 = dicts w1 /\
  _database <$> objs w2 !! b = _database <$> objs w1 !! a /\
  _schema <$> objs w2 !! b = _schema <$> objs w1 !! a.
Proof.
  intros HA HB.
  destruct (construction_result _ _ _ _ _ _ _ _ _ HA)
    as (? & c & sA & [= <-] & Hl & _ & HoA & HdA).
  destruct (construction_result _ _ _ _ _ _ _ _ _ HB)
    as (? & cB & sB & [= <-] & HlB & _ & HoB & HdB).
  rewrite HdA, lookup_insert_eq in HlB. injection HlB as <-.
  rewrite HdB, HoA, HoB, !lookup_insert_eq. simpl.
  rewrite updated_again, updated_database, updated_schema, !resolved_again.
  split; [|done]. rewrite HdA. apply insert_insert_eq.
Qed.

(** X11: right after a construction, what [_describe] reports as database
    and schema is what the caller's credentials dictionary now holds. *)
Theorem describe_agrees_with_credentials
    tn sch db la sa l w0 self w1 :
  instantiate tn sch db la sa (Some l) w0 = (Ok self, w1) ->
  exists m c',
    _describe self w1 = (Ok m, w1) /\ dicts w1 !! l = Some c' /\
    m !! "database" = c' !! "database" /\
    m !! "schema" = c' !! "schema" /\
    m !! "table_name" = Some (VStr tn).
Proof.
  intros Hn.
  destruct (construction_result _ _ _ _ _ _ _ _ _ Hn)
    as (? & c & s & [= <-] & Hl & _ & Ho & Hd).
  eexists _, (updated sch db c).
  rewrite (_describe_at self (built tn sch db la sa l c s))
    by (rewrite Ho; apply lookup_insert_eq).
  split; [reflexivity|]. rewrite Hd, lookup_insert_eq. split; [done|]. simpl.
  rewrite updated_database, updated_schema.
  by rewrite lookup_insert_ne, lookup_insert_eq, lookup_insert_ne,
    lookup_insert_ne, lookup_singleton_eq, lookup_insert_eq.
Qed.


(** *** Operations: what they leave alone, and how they fail *)

Lemma keeps_dicts_ret {A} (a : A) : keeps_dicts (ret a).
Proof. by intros w. Qed.

Lemma keeps_dicts_lift {A} (r : result A) : keeps_dicts (lift r).
Proof. by intros w. Qed.

Lemma keeps_dicts_getattr {A} self (attr : Instance -> A) :
  keeps_dicts (getattr self attr).
Proof. intros w. unfold getattr. by destruct (objs w !! self). Qed.

Lemma keeps_dicts_sdk {A} c (op : Backend -> result A * Backend) :
  keeps_dicts (sdk c op).
Proof. intros w. unfold sdk. by destruct (op (backend w)). Qed.

Lemma keeps_dicts_bind {A B} (m : M A) (k : A -> M B) :
  keeps_dicts m -> (forall a, keeps_dicts (k a)) -> keeps_dicts (bind m k).
Proof.
  intros Hm Hk w. unfold bind. specialize (Hm w).
  destruct (m w) as [[a|e] w']; simpl in *; [|done].
  by rewrite Hk.
Qed.

Create HintDb dicts.
#[local] Hint Resolve keeps_dicts_ret keeps_dicts_lift keeps_dicts_getattr
  keeps_dicts_sdk : dicts.

Ltac dicts_frame :=
  repeat first
    [ apply keeps_dicts_bind; [|intros ?]
    | match goal with
      | |- keeps_dicts (match ?d with _ => _ end) => destruct d
      end
    | solve [auto with dicts] ].

Lemma run_op_dicts self op w : dicts (run_op self op w) = dicts w.
Proof.
  destruct op; simpl;
    [ assert (keeps_dicts (_load self)) as H by (unfold _load; dicts_frame)
    | assert (keeps_dicts (_save self data)) as H
        by (unfold _save; dicts_frame)
    | assert (keeps_dicts (_exists self)) as H
        by (unfold _exists; dicts_frame)
    | assert (keeps_dicts (_describe self)) as H
        by (unfold _describe; dicts_frame) ];
    apply H.
Qed.

(** X8: loading, saving, checking existence and describing never write to
    a dictionary.  After a construction, whatever operations run on whatever
    adapters, the caller's credentials are as the construction left them. *)
Theorem operations_leave_credentials_alone
    tn sch db la sa l w0 self w1 ops :
  instantiate tn sch db la sa (Some l) w0 = (Ok self, w1) ->
  dicts (run_ops ops w1) = dicts w1 /\
  exists c,
    dicts w0 !! l = Some c /\
    dicts (run_ops ops w1) !! l = Some (updated sch db c).
Proof.
  intros Hn.
  assert (forall w, dicts (run_ops ops w) = dicts w) as H.
  { induction ops as [|[s op] ops IH]; intros w; [done|].
    unfold run_ops in *. simpl. by rewrite IH, run_op_dicts. }
  split; [apply H|].
  destruct (construction_result _ _ _ _ _ _ _ _ _ Hn)
    as (? & c & s & [= <-] & Hl & _ & _ & Hd).
  exists c. split; [done|]. by rewrite H, Hd, lookup_insert_eq.
Qed.

(** X9: when the session cannot turn the given data into a dataframe,
    [_save] raises what the conversion raised and stops: the conversion is
    the only SDK call, nothing is written. *)
Theorem save_stops_when_conversion_fails self o w pdf e b :
  objs w !! self = Some o ->
  session_create_dataframe (_session o) pdf (backend w) = (Raise e, b) ->
  _save self (Foreign pdf) w
  = (Raise e, after_calls [CCreateDataframe (_session o) pdf] b w).
Proof.
  intros Ho Hc. rewrite (_save_foreign_at _ _ _ _ Ho).
  unfold bind, sdk. by rewrite Hc.
Qed.

(** X10: [_exists] does not guard its two SDK calls.  If the query is
    refused, it raises that exception and nothing is collected; if the
    collection fails, it raises that exception. *)
Theorem exists_passes_backend_errors_on self o w e cs b :
  objs w !! self = Some o ->
  query_fails o w e cs b ->
  _exists self w = (Raise e, after_calls cs b w).
Proof.
  intros Ho H. rewrite (_exists_at _ _ _ Ho). cbv zeta.
  unfold bind at 1. unfold sdk at 1.
  destruct H as [b Hq|df b1 b Hq Hc]; rewrite Hq; [done|].
  unfold bind at 1. unfold sdk at 1. simpl. rewrite Hc.
  unfold after_calls. by rewrite <- app_assoc.
Qed.

(** X12: when the database or the schema of an adapter is not a string,
    [_load] raises [TypeError] and the world stays as it was: the session
    is not asked for any table. *)
Theorem load_raises_TypeError_without_strings self o w :
  objs w !! self = Some o ->
  (forall d, _database o <> VStr d) \/ (forall s, _schema o <> VStr s) ->
  _load self w = (Raise TypeError, w).
Proof.
  intros Ho H. rewrite (_load_at _ _ _ Ho). unfold bind, lift.
  destruct (_database o) as [| | |d] eqn:Hd; try done.
  destruct (_schema o) as [| | |s] eqn:Hs; try done.
  destruct H as [H|H]; [by destruct (H d)|by destruct (H s)].
Qed.

End Further.

(** ** The adapter at work on the small SDK *)

Section Examples.

Import Demo.
#[local] Existing Instance demo_sdk.

Lemma construction_rejects_missing_configuration_witness :
  exists msg w',
    instantiate "weather_data" None None None None (Some 0) before_partial
    = (Raise (DataSetError msg), w') /\
    calls w' = calls before_partial /\ backend w' = backend before_partial /\
    w' = before_partial.
Proof.
  apply construction_rejects_missing_configuration.
  apply (no_schema _ _ _ _ _ 0 no_schema_credentials);
    [reflexivity|reflexivity|split; reflexivity].
Defined.

Lemma resolution_prefers_explicit_arguments_witness :
  exists o l c,
    objs after_polygons !! 0 = Some o /\ Some 0 = Some l /\
    dicts before_polygons !! l = Some c /\
    (forall d, @None string = Some d -> d <> "" -> _database o = VStr d) /\
    (@None string = None \/ None = Some "" ->
     c !! "database" = Some (_database o)) /\
    (forall s, Some "geodata" = Some s -> s <> "" -> _schema o = VStr s) /\
    (Some "geodata" = None \/ Some "geodata" = Some "" ->
     c !! "schema" = Some (_schema o)).
Proof.
  apply (resolution_prefers_explicit_arguments (SDK := demo_sdk)
           "geopolygons" (Some "geodata") None None None (Some 0)
           before_polygons 0 after_polygons).
  vm_compute. reflexivity.
Defined.


Lemma resolved_configuration_is_fixed_witness :
  _table_name <$> objs (run_ops some_ops after_weather) !! 0
    = Some "weather_data" /\
  _database <$> objs (run_ops some_ops after_weather) !! 0
    = Some (VStr "meteorology") /\
  _schema <$> objs (run_ops some_ops after_weather) !! 0
    = Some (VStr "observations").
Proof.
  apply (resolved_configuration_is_fixed (SDK := demo_sdk)
           "weather_data" None None None (Some overwrite) (Some 0)
           before_weather 0 after_weather).
  vm_compute. reflexivity.
Defined.

Lemma describe_is_idempotent_witness :
  describe_repeatedly 0 3 after_weather
  = (Ok (replicate 3
           {[ "table_name" := VStr "weather_data";
              "database" := VStr "meteorology";
              "schema" := VStr "observations" ]}), after_weather).
Proof.
  apply (describe_is_idempotent (SDK := demo_sdk)
           "weather_data" None None None (Some overwrite) (Some 0)
           before_weather 0 after_weather after_weather);
    vm_compute; reflexivity.
Defined.

Lemma exists_needs_a_first_cell_witness :
  ((exists b, fst (_exists 0 after_polygons) = Ok b) <->
   (exists cell row rest, @nil (list PyVal) = (cell :: row) :: rest)) /\
  (@nil (list PyVal) = [] -> fst (_exists 0 after_polygons) = Raise IndexError) /\
  ((forall cell row rest, @nil (list PyVal) <> (cell :: row) :: rest) ->
   fst (_exists 0 after_polygons) = Raise IndexError).
Proof.
  apply (exists_needs_a_first_cell (SDK := demo_sdk) 0 polygons_adapter
           after_polygons
           ("sql " +:+ existence_query (VStr "detailed_data") (VStr "geodata")
              "geopolygons")
           (backend after_polygons) [] (backend after_polygons));
    vm_compute; reflexivity.
Defined.

Lemma save_writes_qualified_table_witness :
  (forall df,
     _save 0 (Native df) after_weather
     = sdk (CSaveAsTable df weather_name overwrite)
           (save_as_table df weather_name overwrite) after_weather) /\
  (forall pdf,
     _save 0 (Foreign pdf) after_weather
     = (df <- sdk (CCreateDataframe 7 pdf) (session_create_dataframe 7 pdf) ;;
        sdk (CSaveAsTable df weather_name overwrite)
            (save_as_table df weather_name overwrite)) after_weather).
Proof.
  apply (save_writes_qualified_table (SDK := demo_sdk)
           "weather_data" None None None (Some overwrite) (Some 0)
           before_weather 0 after_weather after_weather 7);
    vm_compute; reflexivity.
Defined.

(** The documented example: the qualified name is
    meteorology.observations.weather_data. *)
Lemma load_returns_table_of_qualified_name_witness :
  _load 0 after_weather
  = sdk (CTable 7 "meteorology.observations.weather_data")
        (session_table 7 "meteorology.observations.weather_data")
        after_weather.
Proof.
  apply (load_returns_table_of_qualified_name (SDK := demo_sdk)
           "weather_data" None None None (Some overwrite) (Some 0)
           before_weather 0 after_weather after_weather 7
           "meteorology" "observations");
    vm_compute; reflexivity.
Defined.

(** Credentials may hold a number under "database"; the construction
    succeeds, and loading raises [TypeError] from the join, before the
    session is asked for any table. *)
Lemma load_raises_for_numbered_database :
  instantiate "weather_data" None None None None (Some 0) before_numbered
  = (Ok 0, after_numbered) /\
  _database <$> objs after_numbered !! 0 = Some (VInt 5) /\
  _load 0 after_numbered = (Raise TypeError, after_numbered) /\
  forall sess name,
    _load 0 after_numbered
    <> sdk (CTable sess name) (session_table sess name) after_numbered.
Proof.
  split; [vm_compute; reflexivity|].
  split; [vm_compute; reflexivity|].
  assert (_load 0 after_numbered = (Raise TypeError, after_numbered)) as H
    by (vm_compute; reflexivity).
  split; [exact H|].
  intros sess name. rewrite H. unfold sdk. simpl. discriminate.
Qed.

End Examples.

(** ** The further properties at work *)

Section ScriptedExamples.

Import Scripted.
#[local] Existing Instance scripted_sdk.

Lemma smooth_is_sound :
  ~ misconfigured "weather_data" None None (Some 0) (stage smooth).
Proof.
  apply (sound_configuration _ _ _ _ Demo.weather_credentials); reflexivity.
Defined.

Lemma construction_reuses_active_session_witness :
  exists self w1,
    instantiate "weather_data" None None None None (Some 0) (stage smooth)
    = (Ok self, w1) /\
    _session <$> objs w1 !! self = Some 3 /\
    calls w1 = calls (stage smooth) ++ [CGetActiveSession] /\
    backend w1 = smooth.
Proof.
  apply (construction_reuses_active_session (SDK := scripted_sdk)
           "weather_data" None None None None 0 Demo.weather_credentials
           (stage smooth) 3 smooth);
    [reflexivity|apply smooth_is_sound|reflexivity].
Defined.

Lemma failed_session_keeps_credentials_update_witness :
  objs (snd (weather (stage locked_out))) = objs (stage locked_out) /\
  dicts (snd (weather (stage locked_out)))
  = <[0 := updated None None Demo.weather_credentials]>
      (dicts (stage locked_out)) /\
  ((exists b,
      get_active_session (backend (stage locked_out))
      = (Raise (VendorError "login refused"), b) /\
      is_SnowparkSessionException (VendorError "login refused") = false) \/
   (exists b,
      get_active_session (backend (stage locked_out))
      = (Raise SnowparkSessionException, b) /\
      fst (builder_create (updated None None Demo.weather_credentials) b)
      = Raise (VendorError "login refused"))).
Proof.
  apply (failed_session_keeps_credentials_update (SDK := scripted_sdk)
           "weather_data" None None None None 0 Demo.weather_credentials
           (stage locked_out) (VendorError "login refused")
           (snd (weather (stage locked_out)))).
  - reflexivity.
  - apply (sound_configuration _ _ _ _ Demo.weather_credentials); reflexivity.
  - vm_compute. reflexivity.
Defined.

Lemma save_stops_when_conversion_fails_witness :
  _save 0 (Foreign [[VInt 3]]) (snd (weather (stage degraded)))
  = (Raise (VendorError "not tabular"),
     after_calls [CCreateDataframe 3 [[VInt 3]]] degraded
       (snd (weather (stage degraded)))).
Proof.
  apply (save_stops_when_conversion_fails (SDK := scripted_sdk)
           0 weather_adapter (snd (weather (stage degraded)))
           [[VInt 3]] (VendorError "not tabular") degraded);
    vm_compute; reflexivity.
Defined.

Lemma exists_passes_backend_errors_on_witness :
  _exists 0 (snd (weather (stage degraded)))
  = (Raise (VendorError "warehouse suspended"),
     after_calls
       [CSql 3 (existence_query (VStr "meteorology") (VStr "observations")
                  "weather_data")]
       degraded (snd (weather (stage degraded)))).
Proof.
  apply (exists_passes_backend_errors_on (SDK := scripted_sdk)
           0 weather_adapter (snd (weather (stage degraded)))).
  - vm_compute. reflexivity.
  - apply (query_refused weather_adapter). reflexivity.
Defined.

End ScriptedExamples.

Section SharedExamples.

Import Demo Shared.
#[local] Existing Instance demo_sdk.

Lemma weather_is_sound :
  ~ misconfigured "weather_data" None None (Some 0) before_weather.
Proof.
  apply (sound_configuration _ _ _ _ weather_credentials); reflexivity.
Defined.

Lemma construction_creates_session_from_resolved_credentials_witness :
  exists self w1 params,
    instantiate "weather_data" None None None None (Some 0) before_weather
    = (Ok self, w1) /\
    _session <$> objs w1 !! self = Some 7 /\
    calls w1
    = calls before_weather ++ [CGetActiveSession; CBuilderCreate params] /\
    backend w1
    = {| active := Some 7; next_session := 8; answer := [[VInt 1]] |} /\
    params !! "database" = _database <$> objs w1 !! self /\
    params !! "schema" = _schema <$> objs w1 !! self /\
    (forall k, k <> "database" -> k <> "schema" ->
               params !! k = weather_credentials !! k).
Proof.
  apply (construction_creates_session_from_resolved_credentials
           (SDK := demo_sdk)
           "weather_data" None None None None 0 weather_credentials
           before_weather (backend before_weather) 7);
    [reflexivity|apply weather_is_sound|reflexivity|reflexivity].
Defined.

Lemma construction_error_names_first_missing_item_witness :
  instantiate "weather_data" None None None None (Some 0) before_bare
  = (Raise (DataSetError
              "'database' must be provided by credentials or dataset."),
     before_bare).
Proof.
  apply (construction_error_names_first_missing_item (SDK := demo_sdk)).
  apply (missing_database _ _ _ _ _ 0 bare_credentials);
    [discriminate|reflexivity|reflexivity| |split; reflexivity].
  intros H. apply (f_equal (lookup "account")) in H. discriminate H.
Defined.

Lemma later_adapter_inherits_resolved_values_witness :
  (truthy (@None string) = false ->
   _schema <$> objs polygons_then_weather !! 1
   = _schema <$> objs after_polygons !! 0) /\
  (truthy (@None string) = false ->
   _database <$> objs polygons_then_weather !! 1
   = _database <$> objs after_polygons !! 0).
Proof.
  apply (later_adapter_inherits_resolved_values (SDK := demo_sdk)
           "geopolygons" (Some "geodata") None None None 0 before_polygons
           0 after_polygons after_polygons
           "weather_data" None None None None 1 polygons_then_weather);
    vm_compute; reflexivity.
Defined.

Lemma connection_parameters_follow_later_adapter_witness :
  0 <> 1 /\
  exists oA params,
    objs after_first_weather !! 0 = Some oA /\
    objs weather_then_polygons !! 0 = Some oA /\
    dicts weather_then_polygons !! _connection_parameters oA = Some params /\
    params !! "database" = _database <$> objs weather_then_polygons !! 1 /\
    params !! "schema" = _schema <$> objs weather_then_polygons !! 1.
Proof.
  apply (connection_parameters_follow_later_adapter (SDK := demo_sdk)
           "weather_data" None None None None 0 before_both
           0 after_first_weather
           "geopolygons" (Some "geodata") None None None 1
           weather_then_polygons);
    vm_compute; reflexivity.
Defined.

Lemma reconstruction_is_idempotent_witness :
  dicts weather_twice = dicts after_first_weather /\
  _database <$> objs weather_twice !! 1
  = _database <$> objs after_first_weather !! 0 /\
  _schema <$> objs weather_twice !! 1
  = _schema <$> objs after_first_weather !! 0.
Proof.
  apply (reconstruction_is_idempotent (SDK := demo_sdk)
           "weather_data" None None None None 0 before_both
           0 after_first_weather "weather_data" None None 1 weather_twice);
    vm_compute; reflexivity.
Defined.

Lemma describe_agrees_with_credentials_witness :
  exists m c',
    _describe 0 after_polygons = (Ok m, after_polygons) /\
    dicts after_polygons !! 0 = Some c' /\
    m !! "database" = c' !! "database" /\
    m !! "schema" = c' !! "schema" /\
    m !! "table_name" = Some (VStr "geopolygons").
Proof.
  apply (describe_agrees_with_credentials (SDK := demo_sdk)
           "geopolygons" (Some "geodata") None None None 0 before_polygons
           0 after_polygons).
  vm_compute. reflexivity.
Defined.

Lemma operations_leave_credentials_alone_witness :
  dicts (run_ops some_ops after_weather) = dicts after_weather /\
  exists c,
    dicts before_weather !! 0 = Some c /\
    dicts (run_ops some_ops after_weather) !! 0
    = Some (updated None None c).
Proof.
  apply (operations_leave_credentials_alone (SDK := demo_sdk)
           "weather_data" None None None (Some overwrite) 0 before_weather
           0 after_weather some_ops).
  vm_compute. reflexivity.
Defined.

Lemma load_raises_TypeError_without_strings_witness :
  _load 0 after_numbered = (Raise TypeError, after_numbered).
Proof.
  apply (load_raises_TypeError_without_strings (SDK := demo_sdk)
           0 numbered_adapter after_numbered).
  - vm_compute. reflexivity.
  - left. intros d. discriminate.
Defined.

End SharedExamples.

(** ** Corners at work *)

Section CornerExamples.

Import Demo Corners.
#[local] Existing Instance demo_sdk.

(** An explicit schema that is the empty string does not take precedence:
    the construction succeeds and the adapter's schema is the credentials'
    "observations", not the argument. *)
Lemma empty_schema_argument_yields_to_credentials :
  instantiate "weather_data" (Some "") None None None (Some 0) before_weather
  = (Ok 0, after_empty_schema) /\
  _schema <$> objs after_empty_schema !! 0 = Some (VStr "observations") /\
  _schema <$> objs after_empty_schema !! 0 <> Some (arg (Some "")).
Proof.
  split; [vm_compute; reflexivity|].
  assert (_schema <$> objs after_empty_schema !! 0
          = Some (VStr "observations")) as H by (vm_compute; reflexivity).
  split; [exact H|]. rewrite H. discriminate.
Qed.

Lemma exists_iff_count_is_one_witness :
  exists b w',
    _exists 0 after_two = (Ok b, w') /\
    (b = true <-> 2%Z = 1%Z) /\
    calls w'
    = calls after_two
      ++ [CSql 7 (existence_query (VStr "meteorology") (VStr "observations")
                    "weather_data");
          CCollect ("sql " +:+ existence_query (VStr "meteorology")
                      (VStr "observations") "weather_data")].
Proof.
  apply (exists_iff_count_is_one (SDK := demo_sdk)
           "weather_data" None None None None (Some 0)
           before_two 0 after_two after_two 7 _
           (backend after_two) [VStr "x"] [[VInt 1]] (backend after_two) 2);
    vm_compute; reflexivity.
Defined.

(** The three kinds of count, run. *)
Example exists_at_count_one : fst (_exists 0 after_weather) = Ok true.
Proof. vm_compute. reflexivity. Qed.

Example exists_at_count_zero : fst (_exists 0 after_zero) = Ok false.
Proof. vm_compute. reflexivity. Qed.

Example exists_at_count_two : fst (_exists 0 after_two) = Ok false.
Proof. vm_compute. reflexivity. Qed.

End CornerExamples.

End SnowParkDataSet.
